(** * FloatChat front end: export tracker and real-time feed client

    A shallow embedding of two React components of the FloatChat front end:
    - [components/DataExport.tsx] (module [DataExport]): the export dialog,
      [handleExport] and the simulated export loop [simulateExport];
    - [components/RealTimeUpdates.tsx] (module [RealTimeUpdates]): the
      WebSocket client with reconnect timer, the bounded update feed and the
      stats merge, with its time-ago and type-label rendering;
    - the statistics loader of [Dashboard] (module [Dashboard]) and the
      activity clock of [Collaboration] (module [Collaboration]).

    Each component is a state record; every host event (a click, a timer
    continuation, a WebSocket event) is one step.  React 18 batches all the
    [setState] calls made in one event handler or one promise continuation,
    so one step applies the queued updater functions in the order the source
    issues them, and the state after a step is the next one React renders. *)

From Stdlib Require Import List String Ascii Bool ZArith NArith Lia.
From Stdlib Require Import Decimal DecimalString DecimalN.
Import ListNotations.
Open Scope string_scope.
#[local] Set Warnings "-register-all".

(** ** JavaScript values

    Date.now() and the other numbers of the code are kept as [N]
    (milliseconds, counts), or [Z] for time differences; the one fractional
    computation, [toFixed(1)] of a file size, is written out on integers. *)

Inductive jval : Type :=
| JUndef
| JNull
| JBool (b : bool)
| JNum (n : N)
| JStr (s : string)
| JArr (xs : list jval)
| JObj (fs : list (string * jval)).

(** JavaScript truthiness ([x || d], [if (x)]). *)
Definition truthy (v : jval) : bool :=
  match v with
  | JUndef | JNull => false
  | JBool b => b
  | JNum n => negb (N.eqb n 0)
  | JStr s => negb (String.eqb s "")
  | JArr _ | JObj _ => true
  end.

Definition js_or (v d : jval) : jval := if truthy v then v else d.

(** String form of a non-negative integer, as template literals print it. *)
Definition N_to_string (n : N) : string :=
  NilEmpty.string_of_uint (N.to_uint n).

(** Object properties: reading a key gives its last binding (JSON.parse keeps
    the last of duplicated keys); writing a key replaces it in place, or
    appends it when absent. *)
Fixpoint obj_get (k : string) (fs : list (string * jval)) : option jval :=
  match fs with
  | [] => None
  | (k', v) :: t =>
      match obj_get k t with
      | Some w => Some w
      | None => if String.eqb k k' then Some v else None
      end
  end.

Definition obj_set (k : string) (v : jval) (fs : list (string * jval))
  : list (string * jval) :=
  match obj_get k fs with
  | Some _ => map (fun '(k', w) => if String.eqb k k' then (k', v) else (k', w)) fs
  | None => fs ++ [(k, v)]
  end.

(** [v.k]: [None] is the TypeError thrown on [null] and [undefined]. *)
Definition prop (v : jval) (k : string) : option jval :=
  match v with
  | JUndef | JNull => None
  | JObj fs => Some (match obj_get k fs with Some w => w | None => JUndef end)
  | _ => Some JUndef
  end.

Fixpoint index_keys {A} (i : nat) (xs : list A) : list (string * A) :=
  match xs with
  | [] => []
  | x :: t => (N_to_string (N.of_nat i), x) :: index_keys (S i) t
  end.

Fixpoint string_chars (s : string) : list jval :=
  match s with
  | EmptyString => []
  | String c t => JStr (String c EmptyString) :: string_chars t
  end.

(** Own enumerable properties copied by object spread [{...v}]. *)
Definition spread_props (v : jval) : list (string * jval) :=
  match v with
  | JObj fs => fs
  | JArr xs => index_keys 0 xs
  | JStr s => index_keys 0 (string_chars s)
  | _ => []
  end.

(** [{...prev, ...v}]. *)
Definition obj_spread (prev : list (string * jval)) (v : jval)
  : list (string * jval) :=
  fold_left (fun acc '(k, w) => obj_set k w acc) (spread_props v) prev.

(** ** The export tracker ([components/DataExport.tsx]) *)

Module DataExport.

Local Open Scope N_scope.

Inductive status := pending | processing | completed | failed.

Definition status_eqb (a b : status) : bool :=
  match a, b with
  | pending, pending | processing, processing
  | completed, completed | failed, failed => true
  | _, _ => false
  end.

(** [interface ExportRequest]; a [Date] is its millisecond timestamp. *)
Record ExportRequest := {
  id : string;
  format : string;
  parameters : list string;
  timeRange : string;
  region : string;
  status_ : status;
  progress : N;
  createdAt : N;
  completedAt : option N;
  downloadUrl : option string;
  fileSize : option N
}.

(** A running [simulateExport(requestId)]: suspended at its [await] with the
    loop variable [sim_progress]. *)
Record Sim := { sim_id : string; sim_progress : N }.

(** The component's state hooks, plus the suspended export loops. *)
Record State := {
  isOpen : bool;
  selectedFormat : string;
  selectedParameters : list string;
  timeRange_ : string;
  region_ : string;
  exportRequests : list ExportRequest;
  isExporting : bool;
  sims : list Sim
}.

Definition init : State := {|
  isOpen := false;
  selectedFormat := "csv";
  selectedParameters := ["temperature"; "salinity"];
  timeRange_ := "7d";
  region_ := "global";
  exportRequests := [];
  isExporting := false;
  sims := []
|}.

Definition set_isOpen (b : bool) (s : State) : State :=
  {| isOpen := b; selectedFormat := selectedFormat s;
     selectedParameters := selectedParameters s; timeRange_ := timeRange_ s;
     region_ := region_ s; exportRequests := exportRequests s;
     isExporting := isExporting s; sims := sims s |}.

Definition set_selectedFormat (f : string) (s : State) : State :=
  {| isOpen := isOpen s; selectedFormat := f;
     selectedParameters := selectedParameters s; timeRange_ := timeRange_ s;
     region_ := region_ s; exportRequests := exportRequests s;
     isExporting := isExporting s; sims := sims s |}.

Definition set_selectedParameters (ps : list string) (s : State) : State :=
  {| isOpen := isOpen s; selectedFormat := selectedFormat s;
     selectedParameters := ps; timeRange_ := timeRange_ s;
     region_ := region_ s; exportRequests := exportRequests s;
     isExporting := isExporting s; sims := sims s |}.

Definition set_timeRange (r : string) (s : State) : State :=
  {| isOpen := isOpen s; selectedFormat := selectedFormat s;
     selectedParameters := selectedParameters s; timeRange_ := r;
     region_ := region_ s; exportRequests := exportRequests s;
     isExporting := isExporting s; sims := sims s |}.

Definition set_region (r : string) (s : State) : State :=
  {| isOpen := isOpen s; selectedFormat := selectedFormat s;
     selectedParameters := selectedParameters s; timeRange_ := timeRange_ s;
     region_ := r; exportRequests := exportRequests s;
     isExporting := isExporting s; sims := sims s |}.

Definition set_exportRequests (f : list ExportRequest -> list ExportRequest)
    (s : State) : State :=
  {| isOpen := isOpen s; selectedFormat := selectedFormat s;
     selectedParameters := selectedParameters s; timeRange_ := timeRange_ s;
     region_ := region_ s; exportRequests := f (exportRequests s);
     isExporting := isExporting s; sims := sims s |}.

Definition set_isExporting (b : bool) (s : State) : State :=
  {| isOpen := isOpen s; selectedFormat := selectedFormat s;
     selectedParameters := selectedParameters s; timeRange_ := timeRange_ s;
     region_ := region_ s; exportRequests := exportRequests s;
     isExporting := b; sims := sims s |}.

Definition set_sims (l : list Sim) (s : State) : State :=
  {| isOpen := isOpen s; selectedFormat := selectedFormat s;
     selectedParameters := selectedParameters s; timeRange_ := timeRange_ s;
     region_ := region_ s; exportRequests := exportRequests s;
     isExporting := isExporting s; sims := l |}.

(** [handleParameterToggle]. *)
Definition handleParameterToggle (p : string) (s : State) : State :=
  let prev := selectedParameters s in
  set_selectedParameters
    (if existsb (String.eqb p) prev
     then filter (fun q => negb (String.eqb q p)) prev
     else prev ++ [p]) s.

(** What [handleExport] reports: the error toast of the early return, or the
    started export with its id. *)
Inductive outcome := ToastError (msg : string) | ExportStarted (rid : string).

Definition export_id (now : N) : string := "export_" ++ N_to_string now.

(** [handleExport] at time [now] ([Date.now()]).  [simulateExport] runs
    synchronously up to its first [await], with [progress = 0]. *)
Definition handleExport (now : N) (s : State) : outcome * State :=
  match selectedParameters s with
  | [] => (ToastError "Please select at least one parameter", s)
  | _ =>
      let exportRequest := {|
        id := export_id now;
        format := selectedFormat s;
        parameters := selectedParameters s;
        timeRange := timeRange_ s;
        region := region_ s;
        status_ := pending;
        progress := 0;
        createdAt := now;
        completedAt := None;
        downloadUrl := None;
        fileSize := None |} in
      let s1 := set_isExporting true s in
      let s2 := set_exportRequests (fun prev => exportRequest :: prev) s1 in
      let s3 := set_isOpen false s2 in
      (ExportStarted (id exportRequest),
       set_sims (sims s3 ++ [{| sim_id := id exportRequest; sim_progress := 0 |}]) s3)
  end.

(** The updater of one loop iteration:
    [{ ...req, progress, status: 'processing' }] on the matching id. *)
Definition tick_update (requestId : string) (p : N) (req : ExportRequest)
  : ExportRequest :=
  if String.eqb (id req) requestId then
    {| id := id req; format := format req; parameters := parameters req;
       timeRange := timeRange req; region := region req;
       status_ := processing; progress := p; createdAt := createdAt req;
       completedAt := completedAt req; downloadUrl := downloadUrl req;
       fileSize := fileSize req |}
  else req.

(** The updater after the loop, with [new Date()] at [now] and
    [Math.floor(Math.random() * 50000000)] equal to [rnd]. *)
Definition complete_update (requestId : string) (now rnd : N)
    (req : ExportRequest) : ExportRequest :=
  if String.eqb (id req) requestId then
    {| id := id req; format := format req; parameters := parameters req;
       timeRange := timeRange req; region := region req;
       status_ := completed; progress := 100; createdAt := createdAt req;
       completedAt := Some now; downloadUrl := Some "#";
       fileSize := Some (rnd + 1000000) |}
  else req.

(** One continuation of [simulateExport] after its 500 ms timer: the update
    for the current [progress], then [progress += 10]; if the loop condition
    [progress <= 100] still holds the loop awaits again, otherwise the
    completion update runs in the same continuation. *)
Definition sim_step (sm : Sim) (now rnd : N) (s : State) : option Sim * State :=
  let rid := sim_id sm in
  let s1 := set_exportRequests (map (tick_update rid (sim_progress sm))) s in
  let p' := sim_progress sm + 10 in
  if N.leb p' 100 then (Some {| sim_id := rid; sim_progress := p' |}, s1)
  else (None, set_exportRequests (map (complete_update rid now rnd)) s1).

Fixpoint remove_nth {A} (i : nat) (l : list A) : list A :=
  match i, l with
  | _, [] => []
  | O, _ :: t => t
  | S i', x :: t => x :: remove_nth i' t
  end.

Fixpoint replace_nth {A} (i : nat) (x : A) (l : list A) : list A :=
  match i, l with
  | _, [] => []
  | O, _ :: t => x :: t
  | S i', y :: t => y :: replace_nth i' x t
  end.

(** The Start Export button: [disabled={isExporting || selectedParameters.length === 0}]. *)
Definition start_disabled (s : State) : bool :=
  isExporting s || (List.length (selectedParameters s) =? 0)%nat.

(** Host events.  The Start Export button is rendered only while the dialog
    is open, and a disabled button fires no click. *)
Inductive event :=
| OpenDialog                     (* Export Data button *)
| CloseDialog                    (* backdrop, close icon, Cancel *)
| SelectFormat (f : string)
| ToggleParameter (p : string)
| SetTimeRange (r : string)
| SetRegion (r : string)
| ClickStartExport (now : N)
| SimTimer (i : nat) (now rnd : N). (* the [i]-th suspended loop resumes *)

Definition step (e : event) (s : State) : State :=
  match e with
  | OpenDialog => set_isOpen true s
  | CloseDialog => set_isOpen false s
  | SelectFormat f => set_selectedFormat f s
  | ToggleParameter p => handleParameterToggle p s
  | SetTimeRange r => set_timeRange r s
  | SetRegion r => set_region r s
  | ClickStartExport now =>
      if isOpen s && negb (start_disabled s) then snd (handleExport now s) else s
  | SimTimer i now rnd =>
      match nth_error (sims s) i with
      | None => s
      | Some sm =>
          match sim_step sm now rnd s with
          | (Some sm', s') => set_sims (replace_nth i sm' (sims s')) s'
          | (None, s') => set_sims (remove_nth i (sims s')) s'
          end
      end
  end.

Fixpoint run (tr : list event) (s : State) : State :=
  match tr with
  | [] => s
  | e :: t => run t (step e s)
  end.

(** The option lists of the dialog: [exportFormats], [parameters],
    [timeRanges] and [regions], as (id, name) pairs. *)
Definition exportFormats : list (string * string) :=
  [("csv", "CSV"); ("netcdf", "NetCDF"); ("json", "JSON"); ("excel", "Excel")].

Definition parameter_ids : list string :=
  ["temperature"; "salinity"; "pressure"; "oxygen"; "ph"; "chlorophyll"].

Definition timeRanges : list (string * string) :=
  [("24h", "24 Hours"); ("7d", "7 Days"); ("30d", "30 Days"); ("90d", "90 Days");
   ("1y", "1 Year"); ("custom", "Custom Range")].

Definition regions : list string :=
  ["global"; "indian"; "pacific"; "atlantic"; "southern"].

(** [list.find(t => t.id === x)?.name]. *)
Fixpoint find_name (x : string) (l : list (string * string)) : option string :=
  match l with
  | [] => None
  | (i, nm) :: t => if String.eqb i x then Some nm else find_name x t
  end.

(** [(a / b).toFixed(1)] for integers [a >= 0], [b > 0]: the integer [n]
    closest to [10 a / b], the larger one on a tie, printed as [n / 10] "."
    [n mod 10].  This is the JavaScript result for safe-integer [a]
    ([a < 2^53]) and the power-of-two divisors used below: [a / b] is then
    exact and below 1e21, so no exponent form arises.  Above that range
    JavaScript first rounds [a] to a double and prints quotients from 1e21 on
    in exponent form; the definition is not meant for such inputs. *)
Definition tenths (n : N) : string :=
  N_to_string (n / 10) ++ "." ++ N_to_string (n mod 10).

Definition toFixed1 (a b : N) : string := tenths ((20 * a + b) / (2 * b)).

(** [formatFileSize]. *)
Definition formatFileSize (bytes : N) : string :=
  if bytes <? 1024 then N_to_string bytes ++ " B"
  else if bytes <? 1024 * 1024 then toFixed1 bytes 1024 ++ " KB"
  else if bytes <? 1024 * 1024 * 1024 then toFixed1 bytes (1024 * 1024) ++ " MB"
  else toFixed1 bytes (1024 * 1024 * 1024) ++ " GB".

(** What one row of the Export History shows: the progress bar (its width)
    when processing, the size or percentage text, and the download button. *)
Record RowView := { row_bar : option N; row_text : string; row_download : bool }.

Definition request_row (req : ExportRequest) : RowView :=
  let pct := N_to_string (progress req) ++ "%" in
  {| row_bar := if status_eqb (status_ req) processing then Some (progress req) else None;
     row_text :=
       match status_ req, fileSize req with
       | completed, Some n => if N.eqb n 0 then pct else formatFileSize n
       | _, _ => pct
       end;
     row_download :=
       status_eqb (status_ req) completed &&
       match downloadUrl req with Some u => negb (String.eqb u "") | None => false end |}.

(** The events the rendered dialog can produce: format buttons, parameter
    buttons and select options come from the lists above. *)
Definition ui_event_ok (e : event) : Prop :=
  match e with
  | SelectFormat f => In f (map fst exportFormats)
  | ToggleParameter p => In p parameter_ids
  | SetTimeRange r => In r (map fst timeRanges)
  | SetRegion r => In r regions
  | _ => True
  end.

End DataExport.

(** ** The real-time feed client ([components/RealTimeUpdates.tsx]) *)

Module RealTimeUpdates.

(** [interface UpdateData]; the typed fields hold whatever the payload
    carried, so they are kept as JavaScript values. *)
Record UpdateData := {
  uid : string;
  utype : jval;
  umessage : jval;
  utimestamp : N;
  ustatus : jval;
  udata : jval
}.

(** [WebSocket.readyState]. *)
Inductive readyState := CONNECTING | OPEN | CLOSING | CLOSED.

Definition rs_eqb (a b : readyState) : bool :=
  match a, b with
  | CONNECTING, CONNECTING | OPEN, OPEN | CLOSING, CLOSING | CLOSED, CLOSED => true
  | _, _ => false
  end.

(** Lifetime of the component instance. *)
Inductive phase := Fresh | Alive | Gone.

(** The state hooks ([isConnected], [updates], [lastUpdate], [stats]), the
    refs ([wsRef], [reconnectTimeoutRef]) and the host resources: every
    WebSocket constructed so far (its index is its identity) and the pending
    timers. *)
Record State := {
  life : phase;
  isConnected : bool;
  updates : list UpdateData;
  lastUpdate : N;
  stats : list (string * jval);
  sockets : list readyState;
  wsRef : option nat;
  reconnectTimeoutRef : option nat;
  timers : list nat;
  next_timer : nat
}.

(** The first render at time [t0]. *)
Definition init (t0 : N) : State := {|
  life := Fresh;
  isConnected := true;
  updates := [];
  lastUpdate := t0;
  stats := [("totalFloats", JNum 3847); ("activeFloats", JNum 3621);
            ("dataPoints", JNum 1247832); ("lastSync", JNum t0)];
  sockets := [];
  wsRef := None;
  reconnectTimeoutRef := None;
  timers := [];
  next_timer := 1
|}.

Definition Build l c u lu st so w r tm nt : State :=
  {| life := l; isConnected := c; updates := u; lastUpdate := lu; stats := st;
     sockets := so; wsRef := w; reconnectTimeoutRef := r; timers := tm;
     next_timer := nt |}.

Definition set_life (l : phase) (s : State) : State :=
  Build l (isConnected s) (updates s) (lastUpdate s) (stats s) (sockets s)
    (wsRef s) (reconnectTimeoutRef s) (timers s) (next_timer s).

Definition set_isConnected' (b : bool) (s : State) : State :=
  Build (life s) b (updates s) (lastUpdate s) (stats s) (sockets s)
    (wsRef s) (reconnectTimeoutRef s) (timers s) (next_timer s).

Definition set_updates' (f : list UpdateData -> list UpdateData) (s : State) : State :=
  Build (life s) (isConnected s) (f (updates s)) (lastUpdate s) (stats s)
    (sockets s) (wsRef s) (reconnectTimeoutRef s) (timers s) (next_timer s).

Definition set_lastUpdate' (t : N) (s : State) : State :=
  Build (life s) (isConnected s) (updates s) t (stats s) (sockets s)
    (wsRef s) (reconnectTimeoutRef s) (timers s) (next_timer s).

Definition set_stats' (f : list (string * jval) -> list (string * jval))
    (s : State) : State :=
  Build (life s) (isConnected s) (updates s) (lastUpdate s) (f (stats s))
    (sockets s) (wsRef s) (reconnectTimeoutRef s) (timers s) (next_timer s).

Definition set_sockets (so : list readyState) (s : State) : State :=
  Build (life s) (isConnected s) (updates s) (lastUpdate s) (stats s) so
    (wsRef s) (reconnectTimeoutRef s) (timers s) (next_timer s).

Definition set_wsRef (w : option nat) (s : State) : State :=
  Build (life s) (isConnected s) (updates s) (lastUpdate s) (stats s)
    (sockets s) w (reconnectTimeoutRef s) (timers s) (next_timer s).

Definition set_timers (r : option nat) (tm : list nat) (nt : nat) (s : State)
  : State :=
  Build (life s) (isConnected s) (updates s) (lastUpdate s) (stats s)
    (sockets s) (wsRef s) r tm nt.

(** A state-hook update: React drops it once the component has unmounted.
    Refs and host resources are plain mutable objects and are not gated. *)
Definition react_set (f : State -> State) (s : State) : State :=
  match life s with Alive => f s | _ => s end.

Definition setIsConnected (b : bool) := react_set (set_isConnected' b).

Definition ready (n : nat) (s : State) : option readyState :=
  nth_error (sockets s) n.

Definition set_ready (n : nat) (r : readyState) (s : State) : State :=
  set_sockets (DataExport.replace_nth n r (sockets s)) s.

(** [connectWebSocket]: [new WebSocket('ws://localhost:8000/ws')] (a valid
    URL, so the constructor does not throw) starts CONNECTING, and
    [wsRef.current] is pointed at it. *)
Definition connectWebSocket (s : State) : State :=
  let n := List.length (sockets s) in
  set_wsRef (Some n) (set_sockets ((sockets s ++ [CONNECTING])%list) s).

(** [ws.close()]: a CONNECTING or OPEN socket becomes CLOSING; its close event
    is delivered later by the host. *)
Definition ws_close (n : nat) (s : State) : State :=
  match ready n s with
  | Some CONNECTING | Some OPEN => set_ready n CLOSING s
  | _ => s
  end.

(** [clearTimeout]. *)
Definition clearTimeout (t : nat) (s : State) : State :=
  set_timers (reconnectTimeoutRef s) (remove Nat.eq_dec t (timers s))
    (next_timer s) s.

(** The cleanup of the mount effect. *)
Definition cleanup (s : State) : State :=
  let s1 := match wsRef s with Some n => ws_close n s | None => s end in
  match reconnectTimeoutRef s1 with Some t => clearTimeout t s1 | None => s1 end.

(** [ws.onclose]: [setIsConnected(false)], then a new 5 s timer whose id is
    stored in [reconnectTimeoutRef.current]. *)
Definition onclose (s : State) : State :=
  let s1 := setIsConnected false s in
  let t := next_timer s1 in
  set_timers (Some t) (timers s1 ++ [t]) (S t) s1.

Section Feed.

(** [JSON.parse]: [None] when it throws a SyntaxError. *)
Variable JSON_parse : string -> option jval.

(** [handleRealtimeUpdate(data)] at time [now]; [None] when it throws (the
    property reads on [null]). *)
Definition handleRealtimeUpdate (now : N) (data : jval) (s : State)
  : option State :=
  match prop data "type", prop data "message", prop data "status",
        prop data "data", prop data "stats" with
  | Some ty, Some msg, Some st, Some dd, Some sts =>
      let update := {|
        uid := "update_" ++ N_to_string now;
        utype := js_or ty (JStr "data_sync");
        umessage := js_or msg (JStr "Data updated");
        utimestamp := now;
        ustatus := js_or st (JStr "success");
        udata := dd |} in
      let s1 := react_set (set_updates' (fun prev => firstn 50 (update :: prev))) s in
      let s2 := react_set (set_lastUpdate' now) s1 in
      let s3 := if truthy sts
                then react_set (set_stats' (fun prev => obj_spread prev sts)) s2
                else s2 in
      Some s3
  | _, _, _, _, _ => None
  end.

(** [ws.onmessage]: parse, handle, and on any exception log and go on. *)
Definition onmessage (raw : string) (now : N) (s : State) : State :=
  match JSON_parse raw with
  | None => s
  | Some data =>
      match handleRealtimeUpdate now data s with
      | Some s' => s'
      | None => s
      end
  end.

(** Host events. *)
Inductive event :=
| Mount                          (* first commit: the mount effect runs *)
| Unmount                        (* the effect cleanup runs *)
| Refresh                        (* the Refresh button *)
| SockOpen (n : nat)
| SockError (n : nat)
| SockClose (n : nat)            (* close event of socket [n], for whatever cause *)
| SockMessage (n : nat) (raw : string) (now : N)
| TimerFire (t : nat).

Definition live (n : nat) (s : State) : bool :=
  match ready n s with Some CONNECTING | Some OPEN => true | _ => false end.

Definition step (e : event) (s : State) : State :=
  match e with
  | Mount =>
      match life s with Fresh => connectWebSocket (set_life Alive s) | _ => s end
  | Unmount =>
      match life s with Alive => cleanup (set_life Gone s) | _ => s end
  | Refresh =>
      match life s with Alive => connectWebSocket s | _ => s end
  | SockOpen n =>
      match ready n s with
      | Some CONNECTING => setIsConnected true (set_ready n OPEN s)
      | _ => s
      end
  | SockError n => if live n s then setIsConnected false s else s
  | SockClose n =>
      match ready n s with
      | Some CLOSED | None => s
      | Some _ => onclose (set_ready n CLOSED s)
      end
  | SockMessage n raw now =>
      match ready n s with Some OPEN => onmessage raw now s | _ => s end
  | TimerFire t =>
      if existsb (Nat.eqb t) (timers s)
      then connectWebSocket (set_timers (reconnectTimeoutRef s)
                               (remove Nat.eq_dec t (timers s)) (next_timer s) s)
      else s
  end.

Fixpoint run (tr : list event) (s : State) : State :=
  match tr with
  | [] => s
  | e :: t => run t (step e s)
  end.

End Feed.

(** A JavaScript number in a template literal, for integers. *)
Definition Z_to_string (z : Z) : string :=
  if (z <? 0)%Z then "-" ++ N_to_string (Z.to_N (- z)) else N_to_string (Z.to_N z).

(** [formatTimeAgo(date)] with [new Date()] at [now] (milliseconds);
    [None] is the locale-dependent [date.toLocaleDateString()].  [Math.floor]
    of the quotients is [Z.div]; for safe-integer differences the float
    quotients never round across an integer, so this is exact. *)
Definition formatTimeAgo (now date : Z) : option string :=
  let diff := (now - date)%Z in
  let seconds := (diff / 1000)%Z in
  let minutes := (seconds / 60)%Z in
  let hours := (minutes / 60)%Z in
  if (seconds <? 60)%Z then Some (Z_to_string seconds ++ "s ago")
  else if (minutes <? 60)%Z then Some (Z_to_string minutes ++ "m ago")
  else if (hours <? 24)%Z then Some (Z_to_string hours ++ "h ago")
  else None.

(** [s.replace('_', ' ')]: a string pattern replaces its first occurrence. *)
Fixpoint replace_first_underscore (s : string) : string :=
  match s with
  | EmptyString => EmptyString
  | String c t =>
      if Ascii.eqb c "_"%char then String " "%char t
      else String c (replace_first_underscore t)
  end.

(** [toUpperCase] on ASCII text (payload types are ASCII identifiers). *)
Definition ascii_upper (c : ascii) : ascii :=
  let n := Ascii.nat_of_ascii c in
  if (97 <=? n)%nat && (n <=? 122)%nat then Ascii.ascii_of_nat (n - 32) else c.

Fixpoint to_upper (s : string) : string :=
  match s with
  | EmptyString => EmptyString
  | String c t => String (ascii_upper c) (to_upper t)
  end.

(** The feed row label [update.type.replace('_', ' ').toUpperCase()]:
    [None] is the TypeError when [type] is not a string. *)
Definition type_label (v : jval) : option string :=
  match v with
  | JStr s => Some (to_upper (replace_first_underscore s))
  | _ => None
  end.

(** Rendering the labels of the whole feed; one TypeError fails the render. *)
Fixpoint render_labels (l : list UpdateData) : option (list string) :=
  match l with
  | [] => Some []
  | u :: t =>
      match type_label (utype u), render_labels t with
      | Some x, Some xs => Some (x :: xs)
      | _, _ => None
      end
  end.

End RealTimeUpdates.

(** ** The dashboard's statistics loader ([Dashboard] in the same file) *)

Module Dashboard.

Record Metric := {
  mlabel : string; mvalue : string; mchange : string; mtrend : string;
  micon : string; mcolor : string
}.

Definition metric (l v icon color : string) : Metric :=
  {| mlabel := l; mvalue := v; mchange := ""; mtrend := "up"; micon := icon;
     mcolor := color |}.

Definition dash : string := "—".

Definition mk_metrics (total active measurements lastIngest : string) : list Metric :=
  [metric "Total Floats" total "Navigation" "text-purple-400";
   metric "Active Floats" active "Navigation" "text-purple-400";
   metric "Measurements" measurements "Activity" "text-green-400";
   metric "Last Ingest" lastIngest "Clock" "text-blue-400"].


(** [String(v)] for a JSON value; [None] is the TypeError of an object with
    an own (hence non-callable) [toString] property, which has no primitive
    value.  A number is printed with all its digits, which is what
    JavaScript prints for the safe integers ([n < 2^53], see [exact_nums]);
    larger doubles are printed in shortest round-trip or exponent form,
    which is not modelled. *)
Fixpoint js_String (v : jval) : option string :=
  match v with
  | JUndef => Some "undefined"
  | JNull => Some "null"
  | JBool b => Some (if b then "true" else "false")
  | JNum n => Some (N_to_string n)
  | JStr s => Some s
  | JArr xs =>
      (fix join (xs : list jval) : option string :=
         match xs with
         | [] => Some ""
         | x :: t =>
             let ex := match x with JUndef | JNull => Some "" | _ => js_String x end in
             match ex, t with
             | Some a, [] => Some a
             | Some a, _ => match join t with Some b => Some (a ++ "," ++ b) | None => None end
             | None, _ => None
             end
         end) xs
  | JObj fs => match obj_get "toString" fs with Some _ => None | None => Some "[object Object]" end
  end.

(** The numbers [js_String] prints as JavaScript does: every number in the
    value, or in the elements of an array value, is a safe integer. *)
Fixpoint exact_nums (v : jval) : bool :=
  match v with
  | JNum n => (n <? 9007199254740992)%N
  | JArr xs => (fix all (xs : list jval) : bool :=
                  match xs with [] => true | x :: t => exact_nums x && all t end) xs
  | _ => true
  end.

(** [v ?? d]. *)
Definition nullish (v d : jval) : jval :=
  match v with JUndef | JNull => d | _ => v end.

(** [v[0]]; [None] is the TypeError on [null] and [undefined]. *)
Definition index0 (v : jval) : option jval :=
  match v with
  | JUndef | JNull => None
  | JArr (x :: _) => Some x
  | JStr (String c _) => Some (JStr (String c EmptyString))
  | JObj fs => Some (match obj_get "0" fs with Some w => w | None => JUndef end)
  | _ => Some JUndef
  end.

Section Load.

(** [new Date(ts).toLocaleString()]: locale dependent, left abstract.  The
    Date, valid or not, always has a [toLocaleString]; the one failure is in
    [new Date(ts)] itself (see [stats_metrics]). *)
Variable toLocaleString : jval -> string.

(** The body of [loadStats] after [res.json()] resolved to [st];
    [None] is an exception inside the [try].  [new Date(ts)] converts [ts]
    with ToPrimitive, which for a JSON value fails exactly where [String]
    does (an own, non-callable [toString], also inside an array's
    elements): a TypeError. *)
Definition stats_metrics (st : jval) : option (list Metric) :=
  match prop st "total_floats", prop st "active_floats",
        prop st "total_measurements", prop st "recent_metrics" with
  | Some t, Some a, Some m, Some rm =>
      let total := nullish t (JStr dash) in
      let active := nullish a (JStr dash) in
      let measurements := nullish m (JStr dash) in
      let recentTs :=
        if truthy rm then
          match index0 rm with
          | Some r0 => if truthy r0 then prop r0 "timestamp" else Some JNull
          | None => None
          end
        else Some JNull in
      match recentTs with
      | None => None
      | Some ts =>
          let lastIngest :=
            if truthy ts then
              match js_String ts with
              | Some _ => Some (toLocaleString ts)
              | None => None
              end
            else Some dash in
          match lastIngest with
          | None => None
          | Some li =>
              match js_String total, js_String active, js_String measurements with
              | Some x, Some y, Some z => Some (mk_metrics x y z li)
              | _, _, _ => None
              end
          end
      end
  | _, _, _, _ => None
  end.


End Load.

End Dashboard.

(** ** The activity clock of [Collaboration] (same file) *)

Module Collaboration.

(** [formatTimeAgo(date)] with [new Date()] at [now] (milliseconds);
    [Math.floor] of the quotients is [Z.div], exact for differences below
    2^48 ms, where the float quotient never rounds across an integer. *)
Definition formatTimeAgo (now date : Z) : string :=
  let diff := (now - date)%Z in
  let minutes := (diff / 60000)%Z in
  let hours := (minutes / 60)%Z in
  let days := (hours / 24)%Z in
  if (minutes <? 60)%Z then RealTimeUpdates.Z_to_string minutes ++ "m ago"
  else if (hours <? 24)%Z then RealTimeUpdates.Z_to_string hours ++ "h ago"
  else RealTimeUpdates.Z_to_string days ++ "d ago".

End Collaboration.

(** ** Properties of the export tracker *)

Module DataExportFacts.
Import DataExport.
Local Open Scope N_scope.

Example handleExport_id_example :
  fst (handleExport 1700000000000 init) = ExportStarted "export_1700000000000".
Proof. reflexivity. Qed.

Example toggle_example :
  selectedParameters (handleParameterToggle "salinity" init) = ["temperature"].
Proof. reflexivity. Qed.

(** The tracker's invariant: before the first export nothing exists; after
    it there is exactly one job, either driven by its one suspended loop
    (pending at loop value 0, or processing one step behind the loop value)
    or completed. *)
Definition job_inv (j : ExportRequest) (l : list Sim) : Prop :=
  (exists p, l = [{| sim_id := id j; sim_progress := p |}] /\ p <= 100 /\
     completedAt j = None /\
     ((status_ j = pending /\ progress j = 0 /\ p = 0) \/
      (status_ j = processing /\ progress j + 10 = p)))
  \/ (l = [] /\ status_ j = completed /\ progress j = 100 /\ completedAt j <> None).

Definition Inv (s : State) : Prop :=
  (isExporting s = false /\ exportRequests s = [] /\ sims s = [])
  \/ (isExporting s = true /\ exists j, exportRequests s = [j] /\ job_inv j (sims s)).

Lemma tick_update_fields rid p j :
  String.eqb (id j) rid = true ->
  id (tick_update rid p j) = id j /\ status_ (tick_update rid p j) = processing /\
  progress (tick_update rid p j) = p /\
  completedAt (tick_update rid p j) = completedAt j.
Proof. intros H. unfold tick_update. rewrite H. simpl. auto. Qed.

Lemma complete_update_fields rid n r j :
  String.eqb (id j) rid = true ->
  id (complete_update rid n r j) = id j /\
  status_ (complete_update rid n r j) = completed /\
  progress (complete_update rid n r j) = 100 /\
  completedAt (complete_update rid n r j) = Some n /\
  downloadUrl (complete_update rid n r j) = Some "#" /\
  fileSize (complete_update rid n r j) = Some (r + 1000000).
Proof. intros H. unfold complete_update. rewrite H. simpl. auto 7. Qed.

(** One timer continuation of the only running loop, before the end. *)
Lemma sim_timer_continue s j p n r :
  exportRequests s = [j] ->
  sims s = [{| sim_id := id j; sim_progress := p |}] ->
  p + 10 <= 100 ->
  exportRequests (step (SimTimer 0 n r) s) = [tick_update (id j) p j] /\
  sims (step (SimTimer 0 n r) s) = [{| sim_id := id j; sim_progress := p + 10 |}] /\
  isExporting (step (SimTimer 0 n r) s) = isExporting s.
Proof.
  intros Hr Hs Hp. simpl. rewrite Hs. unfold sim_step. simpl.
  apply N.leb_le in Hp. rewrite Hp. simpl. rewrite Hr, Hs. simpl. auto.
Qed.

(** The last continuation: the loop exits and the completion update runs. *)
Lemma sim_timer_last s j p n r :
  exportRequests s = [j] ->
  sims s = [{| sim_id := id j; sim_progress := p |}] ->
  100 < p + 10 ->
  exportRequests (step (SimTimer 0 n r) s) =
    [complete_update (id j) n r (tick_update (id j) p j)] /\
  sims (step (SimTimer 0 n r) s) = [] /\
  isExporting (step (SimTimer 0 n r) s) = isExporting s.
Proof.
  intros Hr Hs Hp. simpl. rewrite Hs. unfold sim_step. simpl.
  assert (Hb : N.leb (p + 10) 100 = false) by (apply N.leb_gt; lia).
  rewrite Hb. simpl. rewrite Hr, Hs. simpl. auto.
Qed.

Lemma Inv_init : Inv init.
Proof. left. simpl. auto. Qed.

Lemma Inv_sim_timer s i n r : Inv s -> Inv (step (SimTimer i n r) s).
Proof.
  intros [(Hx & Hr & Hs) | (Hx & j & Hr & Hj)].
  - left. simpl. rewrite Hs. destruct i; simpl; auto.
  - destruct Hj as [(p & Hs & Hp & Hc & Hph) | (Hs & Hst & Hpr & Hc)].
    + destruct i as [|i].
      2:{ right. simpl. rewrite Hs. simpl. destruct i; simpl;
          (split; [exact Hx|]; exists j; split; [exact Hr|]; left; exists p; auto). }
      assert (Heq : String.eqb (id j) (id j) = true) by apply String.eqb_refl.
      destruct (N.le_gt_cases (p + 10) 100) as [Hle | Hgt].
      * destruct (sim_timer_continue s j p n r Hr Hs Hle) as (Hr' & Hs' & Hx').
        destruct (tick_update_fields (id j) p j Heq) as (Hi & Hst & Hpr & Hc').
        right. split; [rewrite Hx'; exact Hx|]. exists (tick_update (id j) p j).
        split; [exact Hr'|]. left. exists (p + 10).
        rewrite Hs', Hi. split; [reflexivity|]. split; [exact Hle|].
        split; [congruence|]. right. split; [exact Hst|]. rewrite Hpr. reflexivity.
      * destruct (sim_timer_last s j p n r Hr Hs Hgt) as (Hr' & Hs' & Hx').
        destruct (tick_update_fields (id j) p j Heq) as (Hi & _ & _ & _).
        assert (Heq' : String.eqb (id (tick_update (id j) p j)) (id j) = true)
          by (rewrite Hi; apply String.eqb_refl).
        destruct (complete_update_fields (id j) n r _ Heq') as (_ & Hst & Hpr & Hc' & _).
        right. split; [rewrite Hx'; exact Hx|]. eexists. split; [exact Hr'|]. right.
        rewrite Hs'. repeat split; auto. rewrite Hc'. discriminate.
    + right. simpl. rewrite Hs. destruct i; simpl;
      (split; [exact Hx|]; exists j; split; [exact Hr|]; right; auto).
Qed.

Lemma Inv_step s e : Inv s -> Inv (step e s).
Proof.
  intros H. destruct e as [| | f | p | tr | rg | now | i n r].
  1-6: exact H.
  - simpl. destruct (isOpen s && negb (start_disabled s)) eqn:E; [|exact H].
    apply andb_true_iff in E as [_ E]. unfold start_disabled in E.
    apply negb_true_iff, orb_false_iff in E as [Ex Ep].
    destruct H as [(Hx & Hr & Hs) | (Hx & _)]; [|congruence].
    unfold handleExport. destruct (selectedParameters s) as [|q qs]; [discriminate|].
    unfold Inv. simpl. rewrite Hr, Hs. simpl. right. split; [reflexivity|].
    eexists. split; [reflexivity|]. left. exists 0. simpl.
    split; [reflexivity|]. split; [lia|]. split; [reflexivity|]. left; auto.
  - apply Inv_sim_timer, H.
Qed.

Lemma Inv_run tr s : Inv s -> Inv (run tr s).
Proof.
  revert s. induction tr as [|e tr IH]; intros s H; simpl; auto.
  apply IH, Inv_step, H.
Qed.

Lemma job_inv_consistent j l :
  job_inv j l ->
  (progress j = 100 <-> status_ j = completed) /\
  (completedAt j <> None <-> status_ j = completed).
Proof.
  intros [(p & _ & Hp & Hc & [(Hs & Hpr & _) | (Hs & Hpr)]) | (_ & Hs & Hpr & Hc)].
  - rewrite Hs, Hpr, Hc. split; split; intros; try discriminate; congruence.
  - rewrite Hs, Hc. split; split; intros; try discriminate; try congruence. lia.
  - rewrite Hs, Hpr. split; split; auto.
Qed.

(** Between two timer continuations the last loop iteration would show
    progress 100 with status processing: the completion update is issued
    in the same continuation, so the two updates are rendered together. *)
Lemma last_iteration_unbatched :
  let j := {| id := "export_1"; format := "csv"; parameters := ["ph"];
              timeRange := "7d"; region := "global"; status_ := processing;
              progress := 90; createdAt := 1; completedAt := None;
              downloadUrl := None; fileSize := None |} in
  progress (tick_update "export_1" 100 j) = 100 /\
  status_ (tick_update "export_1" 100 j) = processing.
Proof. split; reflexivity. Qed.

(** C1: in every state the tracker reaches (every state React renders),
    every job has [progress = 100] exactly when its status is completed, and
    has a [completedAt] exactly when its status is completed. *)
Theorem export_progress_completed_iff (tr : list event) :
  forall j, In j (exportRequests (run tr init)) ->
  (progress j = 100 <-> status_ j = completed) /\
  (completedAt j <> None <-> status_ j = completed).
Proof.
  intros j Hin.
  destruct (Inv_run tr init Inv_init) as [(_ & Hr & _) | (_ & j' & Hr & Hj)];
    rewrite Hr in Hin.
  - destruct Hin.
  - destruct Hin as [<- | []]. exact (job_inv_consistent _ _ Hj).
Qed.

Lemma export_progress_completed_iff_witness :
  exists j, In j (exportRequests (run [OpenDialog; ClickStartExport 5] init)) /\
    (progress j = 100 <-> status_ j = completed) /\
    (completedAt j <> None <-> status_ j = completed).
Proof.
  eexists. split.
  - simpl. left. reflexivity.
  - apply (export_progress_completed_iff [OpenDialog; ClickStartExport 5]).
    simpl. left. reflexivity.
Defined.

Lemma sim_step_frame sm n r s o s' :
  sim_step sm n r s = (o, s') ->
  isExporting s' = isExporting s /\
  List.length (exportRequests s') = List.length (exportRequests s).
Proof.
  unfold sim_step. destruct (N.leb _ 100); intros E; inversion E; subst; simpl;
    rewrite ?length_map; auto.
Qed.

Lemma latched_step s e :
  isExporting s = true ->
  isExporting (step e s) = true /\
  List.length (exportRequests (step e s)) = List.length (exportRequests s).
Proof.
  intros H. destruct e as [| | f | p | tr | rg | now | i n r]; simpl; auto.
  - unfold start_disabled. rewrite H. simpl. rewrite andb_false_r. auto.
  - destruct (nth_error (sims s) i) as [sm|]; auto.
    destruct (sim_step sm n r s) as [o s'] eqn:E.
    destruct (sim_step_frame sm n r s o s' E) as [H1 H2].
    destruct o; simpl; rewrite H1, H2; auto.
Qed.

Lemma latched_run tr s :
  isExporting s = true ->
  isExporting (run tr s) = true /\
  List.length (exportRequests (run tr s)) = List.length (exportRequests s).
Proof.
  revert s. induction tr as [|e tr IH]; intros s H; simpl; auto.
  destruct (latched_step s e H) as [H1 H2].
  destruct (IH _ H1) as [H3 H4]. rewrite H4, H2. auto.
Qed.

(** C10: the first accepted click on Start Export sets [isExporting] and adds
    one job; from then on no event resets the flag, the button stays
    disabled and no further job is ever added to the list. *)
Theorem isExporting_latched (s : State) (now : N) :
  isOpen s = true -> isExporting s = false -> selectedParameters s <> [] ->
  let s1 := step (ClickStartExport now) s in
  isExporting s1 = true /\
  List.length (exportRequests s1) = S (List.length (exportRequests s)) /\
  forall tr, isExporting (run tr s1) = true /\
             start_disabled (run tr s1) = true /\
             List.length (exportRequests (run tr s1)) = List.length (exportRequests s1).
Proof.
  intros Ho Hx Hp s1.
  assert (Hd : start_disabled s = false).
  { unfold start_disabled. rewrite Hx. simpl.
    destruct (selectedParameters s); [congruence | reflexivity]. }
  assert (E1 : isExporting s1 = true /\
               List.length (exportRequests s1) = S (List.length (exportRequests s))).
  { unfold s1. simpl. rewrite Ho, Hd. simpl. unfold handleExport.
    destruct (selectedParameters s); [congruence|]. simpl. auto. }
  destruct E1 as [E1 E2]. split; [exact E1|]. split; [exact E2|].
  intros tr. destruct (latched_run tr s1 E1) as [H1 H2].
  unfold start_disabled. rewrite H1. auto.
Qed.

Lemma isExporting_latched_witness :
  isOpen (set_isOpen true init) = true /\
  isExporting (set_isOpen true init) = false /\
  selectedParameters (set_isOpen true init) <> [] /\
  isExporting (step (ClickStartExport 5) (set_isOpen true init)) = true.
Proof.
  assert (Hne : selectedParameters (set_isOpen true init) <> []) by discriminate.
  split; [reflexivity|]. split; [reflexivity|]. split; [exact Hne|].
  apply (isExporting_latched (set_isOpen true init) 5 eq_refl eq_refl Hne).
Defined.

(** C5: with no parameter selected, [handleExport] returns at once with the
    error toast, and the state (job list and every other hook) is the one it
    was called on. *)
Theorem handleExport_empty_rejected (s : State) (now : N) :
  selectedParameters s = [] ->
  handleExport now s = (ToastError "Please select at least one parameter", s).
Proof. intros H. unfold handleExport. rewrite H. reflexivity. Qed.

Lemma handleExport_empty_rejected_witness :
  handleExport 7 (set_selectedParameters [] init) =
    (ToastError "Please select at least one parameter", set_selectedParameters [] init).
Proof. apply handleExport_empty_rejected. reflexivity. Defined.











(** [k] timer continuations of the first suspended loop, the [i]-th one at
    time [fst (env i)] with random draw [snd (env i)]. *)
Fixpoint ticks (k : nat) (env : nat -> N * N) (s : State) : State :=
  match k with
  | O => s
  | S k' => step (SimTimer 0 (fst (env k')) (snd (env k'))) (ticks k' env s)
  end.

Lemma ticks_progress k env s j :
  exportRequests s = [j] ->
  sims s = [{| sim_id := id j; sim_progress := 0 |}] ->
  (k <= 10)%nat ->
  exists j', exportRequests (ticks k env s) = [j'] /\ id j' = id j /\
    sims (ticks k env s) = [{| sim_id := id j; sim_progress := 10 * N.of_nat k |}] /\
    completedAt j' = completedAt j /\
    (k = O -> j' = j) /\
    ((1 <= k)%nat -> status_ j' = processing /\ progress j' = 10 * N.of_nat (k - 1)).
Proof.
  intros Hr Hs. induction k as [|k IH]; intros Hk.
  - exists j. simpl. rewrite Hs. repeat split; auto; intros; lia.
  - destruct IH as (j' & Hr' & Hi & Hs' & Hc & _ & _); [lia|].
    rewrite <- Hi in Hs'.
    assert (Hle : 10 * N.of_nat k + 10 <= 100) by lia.
    destruct (sim_timer_continue _ j' _ (fst (env k)) (snd (env k)) Hr' Hs' Hle)
      as (Hr2 & Hs2 & _).
    assert (Heq : String.eqb (id j') (id j') = true) by apply String.eqb_refl.
    destruct (tick_update_fields (id j') (10 * N.of_nat k) j' Heq) as (Hi2 & Hst & Hpr & Hc2).
    exists (tick_update (id j') (10 * N.of_nat k) j').
    change (ticks (S k) env s) with (step (SimTimer 0 (fst (env k)) (snd (env k))) (ticks k env s)).
    rewrite Hr2, Hs2, Hi2. split; [reflexivity|]. split; [exact Hi|].
    split; [rewrite Hi; f_equal; f_equal; lia|]. split; [congruence|].
    split; [discriminate|]. intros _. split; [exact Hst|].
    rewrite Hpr. replace (S k - 1)%nat with k by lia. reflexivity.
Qed.

(** C6: from any reachable state where Start Export is enabled, an accepted
    export creates one pending job; after tick [k] (1 <= k <= 10) of its loop
    it is processing at [10 * (k - 1)]; tick 11 completes it with progress
    100, [completedAt] stamped, [downloadUrl] and [fileSize] set, and no loop
    is left, so no later timer changes anything. *)
Theorem export_terminates_in_11_ticks (tr : list event) (now : N) :
  let s := run tr init in
  isOpen s = true -> start_disabled s = false ->
  let s1 := step (ClickStartExport now) s in
  (exists j0, exportRequests s1 = [j0] /\ id j0 = export_id now /\
              status_ j0 = pending /\ progress j0 = 0) /\
  forall env : nat -> N * N,
    (forall k, (1 <= k <= 10)%nat ->
       exists j, exportRequests (ticks k env s1) = [j] /\ id j = export_id now /\
         status_ j = processing /\ progress j = 10 * N.of_nat (k - 1) /\
         completedAt j = None) /\
    (exists j, exportRequests (ticks 11 env s1) = [j] /\ id j = export_id now /\
       status_ j = completed /\ progress j = 100 /\
       completedAt j = Some (fst (env 10%nat)) /\ downloadUrl j = Some "#" /\
       fileSize j = Some (snd (env 10%nat) + 1000000) /\
       sims (ticks 11 env s1) = [] /\
       forall i n r, step (SimTimer i n r) (ticks 11 env s1) = ticks 11 env s1).
Proof.
  intros s Ho Hd s1.
  assert (Hx : isExporting s = false /\ selectedParameters s <> []).
  { unfold start_disabled in Hd. apply orb_false_iff in Hd as [H1 H2].
    split; [exact H1|]. destruct (selectedParameters s); [discriminate|congruence]. }
  destruct Hx as [Hx Hp].
  destruct (Inv_run tr init Inv_init) as [(_ & Hr & Hs) | (Hx' & _)];
    [|fold s in Hx'; congruence].
  fold s in Hr, Hs.
  destruct (selectedParameters s) as [|q qs] eqn:Hq; [congruence|].
  set (j0 := {| id := export_id now; format := selectedFormat s;
                parameters := q :: qs; timeRange := timeRange_ s;
                region := region_ s; status_ := pending; progress := 0;
                createdAt := now; completedAt := None; downloadUrl := None;
                fileSize := None |}).
  assert (Hr1 : exportRequests s1 = [j0] /\
                sims s1 = [{| sim_id := id j0; sim_progress := 0 |}]).
  { unfold s1. simpl. rewrite Ho, Hd. simpl. unfold handleExport. rewrite Hq.
    simpl. rewrite Hr, Hs. split; reflexivity. }
  destruct Hr1 as [Hr1 Hs1].
  split; [exists j0; auto|]. intros env. split.
  - intros k Hk.
    destruct (ticks_progress k env s1 j0 Hr1 Hs1 ltac:(lia))
      as (j & Hrk & Hik & _ & Hck & _ & Hph).
    destruct (Hph ltac:(lia)) as [Hst Hpr].
    exists j. auto.
  - destruct (ticks_progress 10 env s1 j0 Hr1 Hs1 ltac:(lia))
      as (j & Hrk & Hik & Hsk & _ & _ & _).
    rewrite <- Hik in Hsk.
    destruct (sim_timer_last _ j _ (fst (env 10%nat)) (snd (env 10%nat)) Hrk Hsk
                ltac:(simpl; lia)) as (Hr2 & Hs2 & _).
    assert (Heq : String.eqb (id j) (id j) = true) by apply String.eqb_refl.
    destruct (tick_update_fields (id j) (10 * N.of_nat 10) j Heq) as (Hi2 & _ & _ & _).
    assert (Heq' : String.eqb (id (tick_update (id j) (10 * N.of_nat 10) j)) (id j) = true)
      by (rewrite Hi2; apply String.eqb_refl).
    destruct (complete_update_fields (id j) (fst (env 10%nat)) (snd (env 10%nat)) _ Heq')
      as (Hi3 & Hst & Hpr & Hc & Hu & Hf).
    eexists.
    change (ticks 11 env s1) with
      (step (SimTimer 0 (fst (env 10%nat)) (snd (env 10%nat))) (ticks 10 env s1)).
    rewrite Hr2. split; [reflexivity|].
    split; [rewrite Hi3, Hi2, Hik; reflexivity|].
    split; [exact Hst|]. split; [exact Hpr|]. split; [exact Hc|].
    split; [exact Hu|]. split; [exact Hf|].
    split; [exact Hs2|]. intros i n r. revert Hs2.
    generalize (step (SimTimer 0 (fst (env 10%nat)) (snd (env 10%nat))) (ticks 10 env s1)).
    intros X HX. cbv beta iota delta [step]. rewrite HX. destruct i; reflexivity.
Qed.

Lemma export_terminates_in_11_ticks_witness :
  isOpen (run [OpenDialog] init) = true /\
  start_disabled (run [OpenDialog] init) = false /\
  exists j0, exportRequests (step (ClickStartExport 5) (run [OpenDialog] init)) = [j0] /\
             id j0 = export_id 5 /\ status_ j0 = pending /\ progress j0 = 0.
Proof.
  split; [reflexivity|]. split; [reflexivity|].
  exact (proj1 (export_terminates_in_11_ticks [OpenDialog] 5 eq_refl eq_refl)).
Defined.

End DataExportFacts.

(** ** Properties of the feed client *)

Module RealTimeUpdatesFacts.
Import RealTimeUpdates.

Ltac case_matches :=
  repeat match goal with
         | H : context [match ?x with _ => _ end] |- _ => destruct x eqn:?
         | |- context [match ?x with _ => _ end] => destruct x eqn:?
         end.

(** Object properties after writes and spreads. *)
Lemma obj_get_app k l1 l2 :
  obj_get k (l1 ++ l2) =
  match obj_get k l2 with Some w => Some w | None => obj_get k l1 end.
Proof.
  induction l1 as [|[k' v] t IH]; simpl.
  - destruct (obj_get k l2); reflexivity.
  - rewrite IH. destruct (obj_get k l2); reflexivity.
Qed.

Lemma obj_get_map k v j l :
  obj_get j (map (fun '(k', w) => if String.eqb k k' then (k', v) else (k', w)) l) =
  match obj_get j l with
  | Some w => Some (if String.eqb k j then v else w)
  | None => None
  end.
Proof.
  induction l as [|[k' w] t IH]; simpl; [reflexivity|].
  destruct (String.eqb k k') eqn:Ek; simpl; rewrite IH;
    destruct (obj_get j t); try reflexivity;
    destruct (String.eqb_spec j k'); subst; try reflexivity;
    rewrite ?Ek; reflexivity.
Qed.

Lemma obj_get_set k v j l :
  obj_get j (obj_set k v l) = if String.eqb j k then Some v else obj_get j l.
Proof.
  unfold obj_set. destruct (obj_get k l) as [w|] eqn:Ek.
  - rewrite obj_get_map. destruct (String.eqb_spec j k) as [->|Hne].
    + rewrite Ek, String.eqb_refl. reflexivity.
    + apply String.eqb_neq in Hne as Hne'.
      rewrite <- String.eqb_sym in Hne'.
      destruct (obj_get j l); [rewrite Hne'|]; reflexivity.
  - rewrite obj_get_app. simpl.
    destruct (String.eqb_spec j k) as [->|Hne]; [reflexivity|].
    reflexivity.
Qed.

Lemma obj_get_fold_set k fs prev :
  obj_get k (fold_left (fun acc '(k', w) => obj_set k' w acc) fs prev) =
  match obj_get k fs with Some v => Some v | None => obj_get k prev end.
Proof.
  revert prev. induction fs as [|[k1 w] t IH]; intros prev; simpl; [reflexivity|].
  rewrite IH. destruct (obj_get k t); [reflexivity|].
  rewrite obj_get_set. destruct (String.eqb k k1); reflexivity.
Qed.

(** The merge [{ ...prev, ...data.stats }] for an object payload. *)
Lemma obj_get_spread k prev fs :
  obj_get k (obj_spread prev (JObj fs)) =
  match obj_get k fs with Some v => Some v | None => obj_get k prev end.
Proof. apply obj_get_fold_set. Qed.

Example spread_example :
  obj_spread [("activeEntities", JNum 5); ("total", JNum 20)]
             (JObj [("activeEntities", JNum 10)]) =
  [("activeEntities", JNum 10); ("total", JNum 20)].
Proof. reflexivity. Qed.

Lemma handle_spec now data s :
  data <> JNull -> data <> JUndef ->
  exists u sts,
    handleRealtimeUpdate now data s =
      Some (let s1 := react_set (set_updates' (fun prev => firstn 50 (u :: prev))) s in
            let s2 := react_set (set_lastUpdate' now) s1 in
            if truthy sts then react_set (set_stats' (fun prev => obj_spread prev sts)) s2
            else s2) /\
    prop data "stats" = Some sts /\
    uid u = "update_" ++ N_to_string now /\ utimestamp u = now.
Proof.
  intros H1 H2. destruct data; try congruence; unfold handleRealtimeUpdate;
    do 2 eexists; (split; [reflexivity|]); auto.
Qed.

(** A well-formed message handled by a mounted component. *)
Lemma handle_alive now data s :
  life s = Alive -> data <> JNull -> data <> JUndef ->
  exists u sts s',
    handleRealtimeUpdate now data s = Some s' /\
    prop data "stats" = Some sts /\
    uid u = "update_" ++ N_to_string now /\ utimestamp u = now /\
    updates s' = firstn 50 (u :: updates s) /\
    stats s' = (if truthy sts then obj_spread (stats s) sts else stats s) /\
    life s' = life s /\ isConnected s' = isConnected s /\ sockets s' = sockets s /\
    wsRef s' = wsRef s /\ timers s' = timers s.
Proof.
  intros Hl H1 H2.
  destruct (handle_spec now data s H1 H2) as (u & sts & Hh & Hs & Hu & Ht).
  exists u, sts. eexists. split; [exact Hh|]. split; [exact Hs|].
  split; [exact Hu|]. split; [exact Ht|].
  unfold react_set. rewrite Hl. simpl. rewrite Hl.
  destruct (truthy sts); simpl; rewrite ?Hl; simpl; auto 10.
Qed.

Lemma react_set_idle f s : life s <> Alive -> react_set f s = s.
Proof. unfold react_set. destruct (life s); congruence. Qed.

Lemma handle_bound now data s s' :
  handleRealtimeUpdate now data s = Some s' ->
  List.length (updates s) <= 50 -> List.length (updates s') <= 50.
Proof.
  intros H Hb.
  assert (H1 : data <> JNull) by (intros ->; discriminate).
  assert (H2 : data <> JUndef) by (intros ->; discriminate).
  destruct (life s) eqn:Hl.
  - destruct (handle_spec now data s H1 H2) as (u & sts & Hh & _).
    rewrite Hh in H. injection H as <-.
    assert (Hi : life s <> Alive) by congruence.
    rewrite !(react_set_idle _ s Hi). destruct (truthy sts); rewrite ?(react_set_idle _ s Hi); exact Hb.
  - destruct (handle_alive now data s Hl H1 H2) as (u & sts & s'' & Hh & _ & _ & _ & Hu & _).
    rewrite H in Hh. injection Hh as <-. rewrite Hu, length_firstn. lia.
  - destruct (handle_spec now data s H1 H2) as (u & sts & Hh & _).
    rewrite Hh in H. injection H as <-.
    assert (Hi : life s <> Alive) by congruence.
    rewrite !(react_set_idle _ s Hi). destruct (truthy sts); rewrite ?(react_set_idle _ s Hi); exact Hb.
Qed.

Lemma updates_step P e s :
  List.length (updates s) <= 50 -> List.length (updates (step P e s)) <= 50.
Proof.
  intros H. destruct e as [| | | n | n | n | n raw now | t]; simpl.
  - destruct (life s); exact H.
  - destruct (life s); [exact H| |exact H]. unfold cleanup, ws_close, clearTimeout.
    simpl. case_matches; exact H.
  - destruct (life s); exact H.
  - unfold setIsConnected, react_set. case_matches; simpl; exact H.
  - unfold setIsConnected, react_set. case_matches; simpl; exact H.
  - unfold onclose, setIsConnected, react_set. case_matches; simpl; exact H.
  - destruct (ready n s) as [[]|]; try exact H. unfold onmessage.
    destruct (P raw) as [data|]; [|exact H].
    destruct (handleRealtimeUpdate now data s) eqn:Eh; [|exact H].
    exact (handle_bound _ _ _ _ Eh H).
  - destruct (existsb (Nat.eqb t) (timers s)); exact H.
Qed.

Lemma updates_run P tr s :
  List.length (updates s) <= 50 -> List.length (updates (run P tr s)) <= 50.
Proof.
  revert s. induction tr as [|e tr IH]; intros s H; simpl; auto.
  apply IH, updates_step, H.
Qed.

Lemma firstn_cons_full {A} (u : A) l :
  List.length l = 50 ->
  firstn 50 (u :: l) = u :: removelast l /\ List.length (firstn 50 (u :: l)) = 50.
Proof.
  intros H. split; [|rewrite length_firstn; simpl List.length; lia].
  change (firstn 50 (u :: l)) with (u :: firstn 49 l).
  f_equal. destruct l as [|x l] using rev_ind; [discriminate|].
  rewrite removelast_last. rewrite length_app in H. simpl in H.
  rewrite firstn_app. replace (49 - List.length l) with 0 by lia.
  change (firstn 0 [x]) with (@nil A). rewrite app_nil_r.
  replace 49 with (List.length l) by lia. apply firstn_all.
Qed.

Lemma step_message P s n raw now :
  ready n s = Some OPEN -> step P (SockMessage n raw now) s = onmessage P raw now s.
Proof. intros H. unfold step. rewrite H. reflexivity. Qed.

(** C7: the feed never holds more than 50 updates; a handled message puts
    its update at the front ([[update, ...prev].slice(0, 50)]), and on a
    full feed the oldest (last) update is the one dropped, the length
    staying 50. *)
Theorem feed_history_bounded (P : string -> option jval) (tr : list event)
    (t0 : N) (n : nat) (raw : string) (now : N) (data : jval) :
  let s := run P tr (init t0) in
  List.length (updates s) <= 50 /\
  (P raw = Some data -> data <> JNull -> data <> JUndef ->
   life s = Alive -> ready n s = Some OPEN ->
   exists u, uid u = "update_" ++ N_to_string now /\
     updates (step P (SockMessage n raw now) s) = firstn 50 (u :: updates s) /\
     (List.length (updates s) = 50 ->
      updates (step P (SockMessage n raw now) s) = u :: removelast (updates s) /\
      List.length (updates (step P (SockMessage n raw now) s)) = 50)).
Proof.
  intros s. split.
  - apply updates_run. simpl. lia.
  - intros Hp H1 H2 Hl Hr. rewrite step_message by exact Hr.
    unfold onmessage. rewrite Hp.
    destruct (handle_alive now data s Hl H1 H2) as (u & sts & s' & Hh & _ & Hu & _ & Hup & _).
    rewrite Hh. exists u. split; [exact Hu|]. split; [exact Hup|].
    intros Hlen. rewrite Hup. apply firstn_cons_full, Hlen.
Qed.

Definition parse_obj (_ : string) : option jval := Some (JObj [("message", JStr "sync")]).

(** Fifty messages on socket 0, at times 1 to 50. *)
Definition fifty_messages : list event :=
  map (fun i => SockMessage 0 "m" (N.of_nat i)) (seq 1 50).

Lemma feed_history_bounded_witness :
  let s := run parse_obj (Mount :: SockOpen 0 :: fifty_messages) (init 0) in
  List.length (updates s) = 50 /\
  exists u, uid u = "update_51" /\
    updates (step parse_obj (SockMessage 0 "m" 51) s) = u :: removelast (updates s) /\
    List.length (updates (step parse_obj (SockMessage 0 "m" 51) s)) = 50.
Proof.
  intros s.
  assert (Hlen : List.length (updates s) = 50) by (vm_compute; reflexivity).
  destruct (feed_history_bounded parse_obj (Mount :: SockOpen 0 :: fifty_messages) 0 0 "m" 51
              (JObj [("message", JStr "sync")])) as [_ Hm].
  destruct (Hm eq_refl ltac:(discriminate) ltac:(discriminate)
              ltac:(vm_compute; reflexivity) ltac:(vm_compute; reflexivity))
    as (u & Hu & _ & Hfull).
  split; [exact Hlen|]. exists u. split; [rewrite Hu; reflexivity|].
  exact (Hfull Hlen).
Defined.

(** C8: a payload [JSON.parse] rejects is caught and logged; the whole client
    state (feed, stats, connection flag, sockets, timers) is unchanged. *)
Theorem feed_malformed_ignored (P : string -> option jval) (s : State)
    (n : nat) (raw : string) (now : N) :
  P raw = None -> step P (SockMessage n raw now) s = s.
Proof.
  intros Hp. unfold step. destruct (ready n s) as [[]|]; try reflexivity.
  unfold onmessage. rewrite Hp. reflexivity.
Qed.

Definition parse_none (_ : string) : option jval := None.

Lemma feed_malformed_ignored_witness :
  parse_none "{oops" = None /\
  step parse_none (SockMessage 0 "{oops" 3) (run parse_none [Mount; SockOpen 0] (init 0)) =
    run parse_none [Mount; SockOpen 0] (init 0).
Proof.
  split; [reflexivity|]. apply feed_malformed_ignored. reflexivity.
Defined.

(** C9: a handled message whose [stats] is an object merges it field by field,
    [{ ...prev, ...data.stats }]: a named field takes the payload's value,
    every other field keeps its value (see [spread_example] for
    [{activeEntities: 10}] over [{activeEntities: 5, total: 20}]). *)
Theorem feed_stats_partial_update (P : string -> option jval) (s : State)
    (n : nat) (raw : string) (now : N) (data : jval) (fs : list (string * jval)) :
  P raw = Some data -> prop data "stats" = Some (JObj fs) ->
  life s = Alive -> ready n s = Some OPEN ->
  forall k, obj_get k (stats (step P (SockMessage n raw now) s)) =
            match obj_get k fs with Some v => Some v | None => obj_get k (stats s) end.
Proof.
  intros Hp Hst Hl Hr k.
  assert (H1 : data <> JNull) by (intros ->; discriminate).
  assert (H2 : data <> JUndef) by (intros ->; discriminate).
  rewrite step_message by exact Hr. unfold onmessage. rewrite Hp.
  destruct (handle_alive now data s Hl H1 H2) as (u & sts & s' & Hh & Hs & _ & _ & _ & Hst' & _).
  rewrite Hh. rewrite Hst in Hs. injection Hs as <-. rewrite Hst'. simpl truthy.
  apply obj_get_spread.
Qed.

Definition parse_stats (_ : string) : option jval :=
  Some (JObj [("type", JStr "data_sync"); ("stats", JObj [("activeFloats", JNum 10)])]).

Lemma feed_stats_partial_update_witness :
  let s := run parse_stats [Mount; SockOpen 0] (init 0) in
  life s = Alive /\ ready 0 s = Some OPEN /\
  obj_get "activeFloats" (stats (step parse_stats (SockMessage 0 "m" 4) s)) = Some (JNum 10) /\
  obj_get "totalFloats" (stats (step parse_stats (SockMessage 0 "m" 4) s)) = Some (JNum 3847).
Proof.
  intros s.
  assert (H := feed_stats_partial_update parse_stats s 0 "m" 4 _ [("activeFloats", JNum 10)]
                 eq_refl eq_refl eq_refl eq_refl).
  split; [reflexivity|]. split; [reflexivity|].
  split; [rewrite H; reflexivity | rewrite H; reflexivity].
Defined.

(** C2 (the failing run): the component mounts, its socket opens, the
    component unmounts.  The cleanup calls [ws.close()] and finds no timer to
    clear; the close event then runs [ws.onclose], which arms a new 5 s timer,
    and when it fires [connectWebSocket] opens a second socket. *)
Theorem feed_reconnects_after_unmount :
  let s_un := run parse_none [Mount; SockOpen 0; Unmount] (init 0) in
  life s_un = Gone /\ reconnectTimeoutRef s_un = None /\ timers s_un = [] /\
  sockets s_un = [CLOSING] /\
  let s1 := step parse_none (SockClose 0) s_un in
  reconnectTimeoutRef s1 = Some 1 /\ timers s1 = [1] /\
  let s2 := step parse_none (TimerFire 1) s1 in
  sockets s2 = [CLOSED; CONNECTING] /\ wsRef s2 = Some 1.
Proof. repeat split; reflexivity. Qed.

(** C3 (counterexample): with the socket OPEN and [isConnected] true, the
    Refresh button still opens a second socket and repoints [wsRef]. *)
Lemma feed_connect_not_idempotent :
  let s := run parse_none [Mount; SockOpen 0] (init 0) in
  isConnected s = true /\ ready 0 s = Some OPEN /\
  sockets (step parse_none Refresh s) = [OPEN; CONNECTING] /\
  wsRef (step parse_none Refresh s) = Some 1 /\
  step parse_none Refresh s <> s.
Proof.
  repeat split; try reflexivity.
  intros H. apply (f_equal wsRef) in H. discriminate H.
Qed.

(** C3 (amended): [connectWebSocket] has no guard; every Refresh click on the
    mounted component opens a new CONNECTING socket and repoints [wsRef] at
    it, leaving the earlier sockets (and their handlers) as they were. *)
Theorem feed_refresh_opens_new_socket (P : string -> option jval) (s : State) :
  life s = Alive ->
  let s' := step P Refresh s in
  s' = connectWebSocket s /\
  sockets s' = (sockets s ++ [CONNECTING])%list /\
  wsRef s' = Some (List.length (sockets s)) /\
  isConnected s' = isConnected s /\ updates s' = updates s /\
  stats s' = stats s /\ timers s' = timers s /\
  reconnectTimeoutRef s' = reconnectTimeoutRef s.
Proof.
  intros Hl s'. assert (E : s' = connectWebSocket s) by (unfold s', step; rewrite Hl; reflexivity).
  rewrite E. repeat split; reflexivity.
Qed.

Lemma feed_refresh_opens_new_socket_witness :
  let s := run parse_none [Mount; SockOpen 0] (init 0) in
  life s = Alive /\ sockets (step parse_none Refresh s) = (sockets s ++ [CONNECTING])%list.
Proof.
  intros s. split; [reflexivity|].
  exact (proj1 (proj2 (feed_refresh_opens_new_socket parse_none s eq_refl))).
Defined.

End RealTimeUpdatesFacts.

(** ** Further properties of the export tracker *)

Module DataExportExtra.
Import DataExport.
Local Open Scope N_scope.

Lemma str_app_assoc (a b c : string) : ((a ++ b) ++ c)%string = (a ++ b ++ c)%string.
Proof. induction a as [|x a IH]; simpl; [reflexivity|]. rewrite IH. reflexivity. Qed.

Lemma existsb_eqb_In p l : existsb (String.eqb p) l = true <-> In p l.
Proof.
  rewrite existsb_exists. split.
  - intros (x & Hx & E). apply String.eqb_eq in E. subst. exact Hx.
  - intros H. exists p. split; [exact H | apply String.eqb_refl].
Qed.

Lemma filter_neq_id p l :
  ~ In p l -> filter (fun q => negb (String.eqb q p)) l = l.
Proof.
  induction l as [|x l IH]; intros H; simpl; [reflexivity|].
  destruct (String.eqb_spec x p) as [->|Hne].
  - exfalso. apply H. left. reflexivity.
  - simpl. rewrite IH; [reflexivity|]. intros Hi. apply H. right. exact Hi.
Qed.

Lemma toggle_params p s :
  selectedParameters (handleParameterToggle p s) =
  if existsb (String.eqb p) (selectedParameters s)
  then filter (fun q => negb (String.eqb q p)) (selectedParameters s)
  else (selectedParameters s ++ [p])%list.
Proof. reflexivity. Qed.

Lemma NoDup_snoc (l : list string) p : NoDup l -> ~ In p l -> NoDup (l ++ [p])%list.
Proof.
  intros Hl Hp. apply NoDup_app; [exact Hl | constructor; [intros []|constructor] |].
  intros a Ha [<-|[]]. exact (Hp Ha).
Qed.

Lemma toggle_NoDup p s :
  NoDup (selectedParameters s) -> NoDup (selectedParameters (handleParameterToggle p s)).
Proof.
  intros H. rewrite toggle_params.
  destruct (existsb (String.eqb p) (selectedParameters s)) eqn:E.
  - apply NoDup_filter, H.
  - apply NoDup_snoc; [exact H|]. intros Hi. apply existsb_eqb_In in Hi. congruence.
Qed.

(** Only the toggle changes the selection; the other events keep it. *)
Lemma selected_step e s :
  selectedParameters (step e s) =
  match e with
  | ToggleParameter p => selectedParameters (handleParameterToggle p s)
  | _ => selectedParameters s
  end.
Proof.
  destruct e as [| | f | p | r | r | now | i n r]; try reflexivity.
  - simpl. destruct (isOpen s && negb (start_disabled s)); [|reflexivity].
    unfold handleExport. destruct (selectedParameters s) eqn:E; simpl; congruence.
  - simpl. destruct (nth_error (sims s) i) as [sm|]; [|reflexivity].
    unfold sim_step. destruct (N.leb (sim_progress sm + 10) 100); reflexivity.
Qed.

(** The dialog's choices and every job's recorded choices are ids of the
    option lists. *)
Definition job_ok (j : ExportRequest) : Prop :=
  In (format j) (map fst exportFormats) /\ In (timeRange j) (map fst timeRanges) /\
  In (region j) regions /\ incl (parameters j) parameter_ids.

Definition ui_inv (s : State) : Prop :=
  In (selectedFormat s) (map fst exportFormats) /\ In (timeRange_ s) (map fst timeRanges) /\
  In (region_ s) regions /\ incl (selectedParameters s) parameter_ids /\
  Forall job_ok (exportRequests s).

Lemma job_ok_tick rid p j : job_ok j -> job_ok (tick_update rid p j).
Proof. unfold tick_update. destruct (String.eqb (id j) rid); auto. Qed.

Lemma job_ok_complete rid n r j : job_ok j -> job_ok (complete_update rid n r j).
Proof. unfold complete_update. destruct (String.eqb (id j) rid); auto. Qed.

Lemma ui_inv_step e s : ui_event_ok e -> ui_inv s -> ui_inv (step e s).
Proof.
  intros He H. destruct H as (Hf & Ht & Hr & Hp & Hj).
  destruct e as [| | f | p | r | r | now | i n r]; simpl in He.
  - repeat split; assumption.
  - repeat split; assumption.
  - repeat split; assumption.
  - unfold ui_inv. simpl. repeat split; try assumption.
    destruct (existsb (String.eqb p) (selectedParameters s)).
    + intros x Hx. apply filter_In in Hx. apply Hp, Hx.
    + intros x Hx. apply in_app_or in Hx as [Hx|[<-|[]]]; [apply Hp, Hx | exact He].
  - repeat split; assumption.
  - repeat split; assumption.
  - simpl. destruct (isOpen s && negb (start_disabled s)); [|repeat split; assumption].
    unfold handleExport. destruct (selectedParameters s) eqn:E;
      [unfold ui_inv; simpl; rewrite E; auto|].
    refine (conj Hf (conj Ht (conj Hr (conj _ _)))); [simpl; rewrite E; exact Hp|].
    constructor; [|exact Hj]. exact (conj Hf (conj Ht (conj Hr Hp))).
  - simpl. destruct (nth_error (sims s) i) as [sm|]; [|repeat split; assumption].
    unfold sim_step. destruct (N.leb (sim_progress sm + 10) 100);
      unfold ui_inv; simpl; repeat split; try assumption.
    + apply Forall_map. eapply Forall_impl; [|exact Hj]. intros; apply job_ok_tick; assumption.
    + rewrite map_map. apply Forall_map. eapply Forall_impl; [|exact Hj].
      intros; apply job_ok_complete, job_ok_tick; assumption.
Qed.

Lemma ui_inv_run tr s : Forall ui_event_ok tr -> ui_inv s -> ui_inv (run tr s).
Proof.
  revert s. induction tr as [|e tr IH]; intros s He H; simpl; [exact H|].
  inversion He; subst. apply IH; [assumption|]. apply ui_inv_step; assumption.
Qed.

Lemma find_name_In x l : In x (map fst l) -> exists nm, find_name x l = Some nm.
Proof.
  induction l as [|[i nm] t IH]; simpl; [intros []|].
  intros [<-|H]; [rewrite String.eqb_refl; eauto|].
  destruct (String.eqb i x); eauto.
Qed.

(** The row fields of a job: a completed one carries its drawn size and the
    download URL, any other one neither. *)
Definition rnd_ok (e : event) : Prop :=
  match e with SimTimer _ _ r => r < 50000000 | _ => True end.

Definition row_inv (j : ExportRequest) : Prop :=
  (status_ j = completed /\ exists r, r < 50000000 /\
     fileSize j = Some (r + 1000000) /\ downloadUrl j = Some "#")
  \/ (status_ j <> completed /\ fileSize j = None /\ downloadUrl j = None).

Lemma row_inv_step e s :
  rnd_ok e -> DataExportFacts.Inv s -> Forall row_inv (exportRequests s) ->
  Forall row_inv (exportRequests (step e s)).
Proof.
  intros He HI H. destruct e as [| | f | p | r | r | now | i n r]; try exact H.
  - simpl. destruct (isOpen s && negb (start_disabled s)); [|exact H].
    unfold handleExport. destruct (selectedParameters s); [exact H|].
    simpl. constructor; [|exact H]. right. simpl. repeat split; discriminate.
  - simpl in He.
    destruct HI as [(_ & Hr & Hs) | (_ & j & Hr & Hj)].
    + simpl. rewrite Hs. destruct i; exact H.
    + destruct Hj as [(p & Hs & _ & _ & Hst) | (Hs & _)].
      2:{ simpl. rewrite Hs. destruct i; exact H. }
      destruct i as [|i].
      2:{ simpl. rewrite Hs. destruct i; exact H. }
      rewrite Hr in H. inversion H as [|? ? Hj0 _]; subst.
      assert (Hnc : status_ j <> completed)
        by (destruct Hst as [(-> & _)|(-> & _)]; discriminate).
      destruct Hj0 as [(Hc & _)|(_ & Hf & Hd)]; [contradiction|].
      assert (Heq : String.eqb (id j) (id j) = true) by apply String.eqb_refl.
      destruct (N.le_gt_cases (p + 10) 100) as [Hle | Hgt].
      * destruct (DataExportFacts.sim_timer_continue s j p n r Hr Hs Hle) as (Hr' & _).
        rewrite Hr'. constructor; [|constructor]. right.
        unfold tick_update. rewrite Heq. simpl. repeat split; [discriminate|assumption|assumption].
      * destruct (DataExportFacts.sim_timer_last s j p n r Hr Hs Hgt) as (Hr' & _).
        rewrite Hr'. constructor; [|constructor]. left.
        unfold complete_update, tick_update. rewrite Heq. simpl. rewrite Heq. simpl.
        split; [reflexivity|]. exists r. auto.
Qed.

Lemma row_inv_run tr s :
  Forall rnd_ok tr -> DataExportFacts.Inv s -> Forall row_inv (exportRequests s) ->
  Forall row_inv (exportRequests (run tr s)).
Proof.
  revert s. induction tr as [|e tr IH]; intros s He HI H; simpl; [exact H|].
  inversion He; subst. apply IH; [assumption | apply DataExportFacts.Inv_step, HI |].
  apply row_inv_step; assumption.
Qed.

(** The sizes [Math.floor(Math.random() * 50000000) + 1000000] print between
    976.6 KB and 48.6 MB. *)
Lemma size_text_range r :
  r < 50000000 ->
  exists n, (9766 <= n <= 10240 /\ formatFileSize (r + 1000000) = (tenths n ++ " KB")%string)
         \/ (10 <= n <= 486 /\ formatFileSize (r + 1000000) = (tenths n ++ " MB")%string).
Proof.
  intros Hr. unfold formatFileSize, toFixed1.
  assert (E1 : (r + 1000000 <? 1024) = false) by (apply N.ltb_ge; lia). rewrite E1.
  destruct (N.ltb_spec (r + 1000000) (1024 * 1024)) as [Hk|Hk].
  - eexists. left. split; [|reflexivity]. split.
    + apply N.div_le_lower_bound; lia.
    + apply N.lt_succ_r, N.Div0.div_lt_upper_bound; lia.
  - assert (E3 : (r + 1000000 <? 1024 * 1024 * 1024) = true) by (apply N.ltb_lt; lia).
    rewrite E3. eexists. right. split; [|reflexivity]. split.
    + apply N.div_le_lower_bound; lia.
    + apply N.lt_succ_r, N.Div0.div_lt_upper_bound; lia.
Qed.

(** X1: the history row of every job shows, by status: processing, a progress
    bar of width [progress] and the text "progress%", no download button;
    pending (or failed), no bar, "progress%", no download button; completed,
    no bar, the download button, and a size text between "976.6 KB" and
    "48.6 MB" (never in B or GB, and [fileSize] is never 0, so the "100%"
    fallback is never shown).  The random draws are below 50000000. *)
Theorem export_history_row_view (tr : list event) (j : ExportRequest) :
  Forall rnd_ok tr -> In j (exportRequests (run tr init)) ->
  let v := request_row j in
  match status_ j with
  | completed =>
      row_bar v = None /\ row_download v = true /\
      exists n, (9766 <= n <= 10240 /\ row_text v = (tenths n ++ " KB")%string)
             \/ (10 <= n <= 486 /\ row_text v = (tenths n ++ " MB")%string)
  | processing =>
      row_bar v = Some (progress j) /\ row_download v = false /\
      row_text v = (N_to_string (progress j) ++ "%")%string
  | _ =>
      row_bar v = None /\ row_download v = false /\
      row_text v = (N_to_string (progress j) ++ "%")%string
  end.
Proof.
  intros He Hin v.
  assert (HR := row_inv_run tr init He DataExportFacts.Inv_init (Forall_nil _)).
  rewrite Forall_forall in HR. specialize (HR j Hin).
  unfold v, request_row. clear v.
  destruct HR as [(Hs & r & Hr & Hf & Hd) | (Hs & Hf & Hd)].
  - rewrite Hs, Hf, Hd. simpl.
    assert (Hz : (r + 1000000 =? 0) = false) by (apply N.eqb_neq; lia). rewrite Hz.
    split; [reflexivity|]. split; [reflexivity|]. apply size_text_range, Hr.
  - rewrite Hf, Hd. destruct (status_ j); simpl; try (exfalso; apply Hs; reflexivity);
      repeat split; reflexivity.
Qed.

Lemma export_history_row_view_witness :
  let tr := ([OpenDialog; ClickStartExport 5] ++ repeat (SimTimer 0 7 123456) 11)%list in
  Forall rnd_ok tr /\
  exists j, In j (exportRequests (run tr init)) /\ status_ j = completed /\
    row_bar (request_row j) = None /\ row_download (request_row j) = true /\
    exists n, (9766 <= n <= 10240 /\ row_text (request_row j) = (tenths n ++ " KB")%string)
           \/ (10 <= n <= 486 /\ row_text (request_row j) = (tenths n ++ " MB")%string).
Proof.
  intros tr. assert (He : Forall rnd_ok tr) by (repeat constructor; simpl; lia).
  split; [exact He|].
  eexists. split; [vm_compute; left; reflexivity|]. split; [reflexivity|].
  exact (export_history_row_view tr _ He ltac:(vm_compute; left; reflexivity)).
Defined.

(** X2: [toFixed(1)] rounds, so the KB branch prints "1024.0 KB" for the 51
    sizes just under 1 MB, from 1048525 to 1048575 bytes. *)
Theorem formatFileSize_rounds_to_1024KB (b : N) :
  1048525 <= b < 1048576 -> formatFileSize b = "1024.0 KB".
Proof.
  intros Hb. unfold formatFileSize, toFixed1.
  assert (E1 : (b <? 1024) = false) by (apply N.ltb_ge; lia). rewrite E1.
  assert (E2 : (b <? 1024 * 1024) = true) by (apply N.ltb_lt; lia). rewrite E2.
  replace ((20 * b + 1024) / (2 * 1024)) with 10240
    by (apply (N.div_unique _ _ _ (20 * b + 1024 - 10240 * 2048)); lia).
  reflexivity.
Qed.

Lemma formatFileSize_rounds_to_1024KB_witness :
  1048525 <= 1048575 < 1048576 /\ formatFileSize 1048575 = "1024.0 KB".
Proof. split; [lia | apply formatFileSize_rounds_to_1024KB; lia]. Defined.

Lemma tenths_whole k : tenths (10 * k) = (N_to_string k ++ ".0")%string.
Proof.
  unfold tenths. rewrite (N.mul_comm 10 k), N.div_mul, N.Div0.mod_mul by lia.
  reflexivity.
Qed.

(** X3: a whole number of units prints as that number with ".0": k KB and
    k MB for 1 <= k < 1024, and k GB for 1 <= k < 2^23, that is for every
    whole number of GB that is a safe integer of bytes ([k * 2^30 < 2^53]). *)
Theorem formatFileSize_whole_units (k : N) :
  (1 <= k < 1024 ->
   formatFileSize (k * 1024) = (N_to_string k ++ ".0 KB")%string /\
   formatFileSize (k * 1048576) = (N_to_string k ++ ".0 MB")%string) /\
  (1 <= k < 8388608 ->
   formatFileSize (k * 1073741824) = (N_to_string k ++ ".0 GB")%string).
Proof.
  split; [intros Hk; split | intros Hk]; unfold formatFileSize, toFixed1.
  - assert (E1 : (k * 1024 <? 1024) = false) by (apply N.ltb_ge; lia). rewrite E1.
    assert (E2 : (k * 1024 <? 1024 * 1024) = true) by (apply N.ltb_lt; lia). rewrite E2.
    replace ((20 * (k * 1024) + 1024) / (2 * 1024)) with (10 * k)
      by (apply (N.div_unique _ _ _ 1024); lia).
    rewrite tenths_whole, str_app_assoc. reflexivity.
  - assert (E1 : (k * 1048576 <? 1024) = false) by (apply N.ltb_ge; lia). rewrite E1.
    assert (E2 : (k * 1048576 <? 1024 * 1024) = false) by (apply N.ltb_ge; lia). rewrite E2.
    assert (E3 : (k * 1048576 <? 1024 * 1024 * 1024) = true) by (apply N.ltb_lt; lia). rewrite E3.
    replace ((20 * (k * 1048576) + 1024 * 1024) / (2 * (1024 * 1024))) with (10 * k)
      by (apply (N.div_unique _ _ _ 1048576); lia).
    rewrite tenths_whole, str_app_assoc. reflexivity.
  - assert (E1 : (k * 1073741824 <? 1024) = false) by (apply N.ltb_ge; lia). rewrite E1.
    assert (E2 : (k * 1073741824 <? 1024 * 1024) = false) by (apply N.ltb_ge; lia). rewrite E2.
    assert (E3 : (k * 1073741824 <? 1024 * 1024 * 1024) = false) by (apply N.ltb_ge; lia).
    rewrite E3.
    replace ((20 * (k * 1073741824) + 1024 * 1024 * 1024) / (2 * (1024 * 1024 * 1024)))
      with (10 * k) by (apply (N.div_unique _ _ _ 1073741824); lia).
    rewrite tenths_whole, str_app_assoc. reflexivity.
Qed.

Lemma formatFileSize_whole_units_witness :
  formatFileSize (512 * 1024) = "512.0 KB" /\ formatFileSize (3 * 1048576) = "3.0 MB" /\
  formatFileSize (2 * 1073741824) = "2.0 GB".
Proof.
  split; [exact (proj1 (proj1 (formatFileSize_whole_units 512) ltac:(lia)))|].
  split; [exact (proj2 (proj1 (formatFileSize_whole_units 3) ltac:(lia)))|].
  exact (proj2 (formatFileSize_whole_units 2) ltac:(lia)).
Defined.

(** X4: [handleParameterToggle p] flips the membership of [p] and keeps that of
    every other parameter. *)
Theorem toggle_flips_membership (p q : string) (s : State) :
  In q (selectedParameters (handleParameterToggle p s)) <->
  (q = p /\ ~ In p (selectedParameters s)) \/ (q <> p /\ In q (selectedParameters s)).
Proof.
  rewrite toggle_params. destruct (existsb (String.eqb p) (selectedParameters s)) eqn:E.
  - apply existsb_eqb_In in E. rewrite filter_In. split.
    + intros [Hq Hn]. right. split; [|exact Hq]. intros ->. rewrite String.eqb_refl in Hn.
      discriminate.
    + intros [[_ Hn]|[Hne Hq]]; [contradiction|]. split; [exact Hq|].
      apply negb_true_iff, String.eqb_neq, Hne.
  - assert (Hn : ~ In p (selectedParameters s))
      by (intros Hi; apply existsb_eqb_In in Hi; congruence).
    split.
    + intros Hq. apply in_app_or in Hq as [Hq|[<-|[]]]; [|left; auto].
      destruct (String.eqb_spec q p) as [->|Hne]; [contradiction|]. right. auto.
    + intros [[-> _]|[_ Hq]]; apply in_or_app; [right; left; reflexivity | left; exact Hq].
Qed.

(** X5: no parameter is ever selected twice, whatever the user does. *)
Theorem selected_parameters_NoDup (tr : list event) :
  NoDup (selectedParameters (run tr init)).
Proof.
  assert (H : forall s, NoDup (selectedParameters s) -> NoDup (selectedParameters (run tr s))).
  { induction tr as [|e tr IH]; intros s Hs; simpl; [exact Hs|]. apply IH.
    rewrite selected_step. destruct e; try exact Hs. apply toggle_NoDup, Hs. }
  apply H. simpl. constructor; [intros [E|[]]; discriminate|].
  constructor; [intros []|constructor].
Qed.

(** X6: toggling the same parameter twice restores an unselected one exactly,
    but moves a selected one to the end of the list. *)
Theorem toggle_twice (p : string) (s : State) :
  (~ In p (selectedParameters s) ->
   selectedParameters (handleParameterToggle p (handleParameterToggle p s)) =
   selectedParameters s) /\
  (forall a b, selectedParameters s = (a ++ p :: b)%list -> NoDup (selectedParameters s) ->
   selectedParameters (handleParameterToggle p (handleParameterToggle p s)) =
   (a ++ b ++ [p])%list).
Proof.
  split.
  - intros Hn. rewrite !toggle_params.
    assert (E : existsb (String.eqb p) (selectedParameters s) = false).
    { destruct (existsb (String.eqb p) (selectedParameters s)) eqn:E; [|reflexivity].
      apply existsb_eqb_In in E. contradiction. }
    rewrite E. simpl selectedParameters at 1.
    replace (existsb (String.eqb p) (selectedParameters s ++ [p])) with true
      by (symmetry; apply existsb_eqb_In, in_or_app; right; left; reflexivity).
    rewrite filter_app, filter_neq_id by exact Hn. simpl. rewrite String.eqb_refl.
    apply app_nil_r.
  - intros a b Hl Hd. rewrite Hl in Hd. apply NoDup_remove in Hd as [_ Hn].
    rewrite !toggle_params.
    replace (existsb (String.eqb p) (selectedParameters s)) with true
      by (symmetry; apply existsb_eqb_In; rewrite Hl; apply in_or_app; right; left; reflexivity).
    simpl selectedParameters at 1. rewrite Hl.
    rewrite filter_app. simpl. rewrite String.eqb_refl. simpl.
    rewrite <- filter_app, filter_neq_id by exact Hn.
    replace (existsb (String.eqb p) (a ++ b)) with false
      by (symmetry; apply not_true_iff_false; intros Hi; apply existsb_eqb_In in Hi; contradiction).
    rewrite <- app_assoc. reflexivity.
Qed.

Lemma toggle_twice_witness :
  let s := handleParameterToggle "pressure" init in
  ~ In "oxygen" (selectedParameters init) /\
  selectedParameters (handleParameterToggle "oxygen" (handleParameterToggle "oxygen" init)) =
    selectedParameters init /\
  selectedParameters s = (["temperature"] ++ "salinity" :: ["pressure"])%list /\
  NoDup (selectedParameters s) /\
  selectedParameters (handleParameterToggle "salinity" (handleParameterToggle "salinity" s)) =
    (["temperature"] ++ ["pressure"] ++ ["salinity"])%list.
Proof.
  intros s.
  assert (Hn : ~ In "oxygen" (selectedParameters init))
    by (simpl; intros [E|[E|[]]]; discriminate).
  assert (Hd : NoDup (selectedParameters s)).
  { simpl. constructor; [intros [E|[E|[]]]; discriminate|].
    constructor; [intros [E|[]]; discriminate|]. constructor; [intros []|constructor]. }
  split; [exact Hn|]. split; [exact (proj1 (toggle_twice "oxygen" init) Hn)|].
  split; [reflexivity|]. split; [exact Hd|].
  exact (proj2 (toggle_twice "salinity" s) ["temperature"] ["pressure"] eq_refl Hd).
Defined.

(** X7: as long as the events come from the rendered controls, every job's
    format and time range are found in the option lists (the row never
    shows an empty name), its region is a listed region and its parameters
    are listed parameters. *)
Theorem export_labels_resolve (tr : list event) (j : ExportRequest) :
  Forall ui_event_ok tr -> In j (exportRequests (run tr init)) ->
  (exists nm, find_name (format j) exportFormats = Some nm) /\
  (exists nm, find_name (timeRange j) timeRanges = Some nm) /\
  In (region j) regions /\ incl (parameters j) parameter_ids.
Proof.
  intros He Hin.
  assert (H0 : ui_inv init).
  { unfold ui_inv. simpl. repeat split; auto 10.
    intros x [<-|[<-|[]]]; simpl; auto 10. }
  destruct (ui_inv_run tr init He H0) as (_ & _ & _ & _ & Hj).
  rewrite Forall_forall in Hj. destruct (Hj j Hin) as (Hf & Ht & Hr & Hp).
  split; [apply find_name_In, Hf|]. split; [apply find_name_In, Ht|]. auto.
Qed.

Lemma export_labels_resolve_witness :
  let tr := [OpenDialog; SelectFormat "netcdf"; SetTimeRange "90d"; SetRegion "indian";
             ToggleParameter "oxygen"; ClickStartExport 42] in
  Forall ui_event_ok tr /\
  exists j, In j (exportRequests (run tr init)) /\
  (exists nm, find_name (format j) exportFormats = Some nm) /\
  (exists nm, find_name (timeRange j) timeRanges = Some nm) /\
  In (region j) regions /\ incl (parameters j) parameter_ids.
Proof.
  intros tr. assert (He : Forall ui_event_ok tr) by (repeat constructor; simpl; auto 10).
  split; [exact He|]. eexists. split; [vm_compute; left; reflexivity|].
  exact (export_labels_resolve tr _ He ltac:(vm_compute; left; reflexivity)).
Defined.

Definition settings (j : ExportRequest) :=
  (id j, format j, parameters j, timeRange j, region j, createdAt j).

Lemma settings_tick rid p j : settings (tick_update rid p j) = settings j.
Proof. unfold tick_update. destruct (String.eqb (id j) rid); reflexivity. Qed.

Lemma settings_complete rid n r j : settings (complete_update rid n r j) = settings j.
Proof. unfold complete_update. destruct (String.eqb (id j) rid); reflexivity. Qed.

Lemma settings_step e s j :
  DataExportFacts.Inv s -> exportRequests s = [j] ->
  exists j', exportRequests (step e s) = [j'] /\ settings j' = settings j.
Proof.
  intros HI Hr. destruct e as [| | f | p | r | r | now | i n r];
    try (exists j; split; [exact Hr | reflexivity]).
  - destruct HI as [(_ & Hr' & _) | (Hx & _)]; [rewrite Hr in Hr'; discriminate|].
    simpl. unfold start_disabled. rewrite Hx. simpl. rewrite andb_false_r.
    exists j. split; [exact Hr | reflexivity].
  - simpl. destruct (nth_error (sims s) i) as [sm|]; [|exists j; split; [exact Hr | reflexivity]].
    unfold sim_step. destruct (N.leb (sim_progress sm + 10) 100); simpl; rewrite Hr; simpl.
    + eexists. split; [reflexivity|]. apply settings_tick.
    + eexists. split; [reflexivity|]. rewrite settings_complete. apply settings_tick.
Qed.

(** X8: a job keeps the settings it was started with (id, format, parameters,
    time range, region, creation time) through every later event: changing
    the dialog afterwards does not touch the running or finished export. *)
Theorem export_job_settings_frozen (tr1 tr2 : list event) (j : ExportRequest) :
  In j (exportRequests (run tr1 init)) ->
  exists j', exportRequests (run tr2 (run tr1 init)) = [j'] /\ settings j' = settings j.
Proof.
  intros Hin. assert (HI := DataExportFacts.Inv_run tr1 init DataExportFacts.Inv_init).
  assert (Hr : exportRequests (run tr1 init) = [j]).
  { destruct HI as [(_ & Hr & _) | (_ & j0 & Hr & _)]; rewrite Hr in Hin; [destruct Hin|].
    destruct Hin as [<-|[]]. exact Hr. }
  revert HI Hr. generalize (run tr1 init). clear Hin. revert j.
  induction tr2 as [|e tr IH]; intros j s HI Hr; simpl.
  - exists j. split; [exact Hr | reflexivity].
  - destruct (settings_step e s j HI Hr) as (j1 & H1 & E1).
    destruct (IH j1 (step e s) (DataExportFacts.Inv_step s e HI) H1) as (j2 & H2 & E2).
    exists j2. split; [exact H2 | congruence].
Qed.

Lemma export_job_settings_frozen_witness :
  let tr1 := [OpenDialog; ClickStartExport 9] in
  let tr2 := [OpenDialog; SelectFormat "json"; ToggleParameter "ph"; SimTimer 0 10 5] in
  exists j, In j (exportRequests (run tr1 init)) /\
  exists j', exportRequests (run tr2 (run tr1 init)) = [j'] /\ settings j' = settings j.
Proof.
  intros tr1 tr2. eexists. split; [vm_compute; left; reflexivity|].
  exact (export_job_settings_frozen tr1 tr2 _ ltac:(vm_compute; left; reflexivity)).
Defined.

End DataExportExtra.

(** ** Further properties of the real-time feed client *)

Module RealTimeUpdatesExtra.
Import RealTimeUpdates.

Lemma handle_keeps_connection now data s s' :
  handleRealtimeUpdate now data s = Some s' ->
  isConnected s' = isConnected s /\ sockets s' = sockets s /\ wsRef s' = wsRef s /\
  reconnectTimeoutRef s' = reconnectTimeoutRef s /\ timers s' = timers s /\
  next_timer s' = next_timer s /\ life s' = life s.
Proof.
  unfold handleRealtimeUpdate. intros H.
  destruct (prop data "type"), (prop data "message"), (prop data "status"),
    (prop data "data"), (prop data "stats") as [sts|]; try discriminate.
  injection H as <-. unfold react_set.
  destruct (life s) eqn:Hl; destruct (truthy sts); simpl; rewrite ?Hl; simpl;
    rewrite ?Hl; simpl; auto 10.
Qed.

Lemma onmessage_keeps_connection P raw now s :
  isConnected (onmessage P raw now s) = isConnected s.
Proof.
  unfold onmessage. destruct (P raw) as [data|]; [|reflexivity].
  destruct (handleRealtimeUpdate now data s) eqn:E; [|reflexivity].
  apply (handle_keeps_connection _ _ _ _ E).
Qed.

Definition no_failure (e : event) : bool :=
  match e with SockError _ | SockClose _ => false | _ => true end.

Lemma connected_step P e s :
  no_failure e = true -> isConnected s = true -> isConnected (step P e s) = true.
Proof.
  intros He Hc. destruct e as [| | | n | n | n | n raw now | t]; try discriminate He; simpl.
  - destruct (life s); exact Hc.
  - destruct (life s); try exact Hc. unfold cleanup, ws_close, clearTimeout, set_ready.
    RealTimeUpdatesFacts.case_matches; exact Hc.
  - destruct (life s); exact Hc.
  - destruct (ready n s) as [[]|]; try exact Hc.
    unfold setIsConnected, react_set. destruct (life (set_ready n OPEN s)); reflexivity || exact Hc.
  - destruct (ready n s) as [[]|]; try exact Hc. rewrite onmessage_keeps_connection. exact Hc.
  - destruct (existsb (Nat.eqb t) (timers s)); exact Hc.
Qed.

(** X9: the header shows "Connected" from the first render on ([isConnected]
    starts true) and keeps showing it until a socket reports an error or a
    close, whether or not any socket ever opened. *)
Theorem connected_until_failure (P : string -> option jval) (tr : list event) (t0 : N) :
  forallb no_failure tr = true -> isConnected (run P tr (init t0)) = true.
Proof.
  assert (H : forall s, isConnected s = true -> forallb no_failure tr = true ->
              isConnected (run P tr s) = true).
  { induction tr as [|e tr IH]; intros s Hc He; simpl; [exact Hc|].
    simpl in He. apply andb_true_iff in He as [He1 He2].
    apply IH; [apply connected_step; assumption | exact He2]. }
  intros He. apply H; [reflexivity | exact He].
Qed.

Definition no_parse (_ : string) : option jval := None.

Lemma connected_until_failure_witness :
  forallb no_failure [Mount; TimerFire 3; Refresh] = true /\
  sockets (run no_parse [Mount; TimerFire 3; Refresh] (init 0)) = [CONNECTING; CONNECTING] /\
  isConnected (run no_parse [Mount; TimerFire 3; Refresh] (init 0)) = true.
Proof.
  split; [reflexivity|]. split; [reflexivity|].
  apply connected_until_failure. reflexivity.
Defined.

Lemma replace_nth_length {A} i (x : A) l :
  List.length (DataExport.replace_nth i x l) = List.length l.
Proof.
  revert i. induction l as [|y l IH]; intros [|i]; simpl; try reflexivity. rewrite IH. reflexivity.
Qed.

(** X12: [reconnectTimeoutRef] holds only the latest timer, so the unmount
    cleanup clears that one alone: any earlier pending reconnect timer
    survives it and, when it fires, opens a socket for the unmounted
    component.  Two timers are pending, for instance, when the current
    socket closes, the user clicks Refresh, and the new socket closes too,
    all within the 5 s delay. *)
Theorem cleanup_misses_older_timers (P : string -> option jval) (s : State) (t : nat) :
  life s = Alive -> In t (timers s) -> reconnectTimeoutRef s <> Some t ->
  let s1 := step P Unmount s in
  life s1 = Gone /\ In t (timers s1) /\
  List.length (sockets (step P (TimerFire t) s1)) = S (List.length (sockets s)).
Proof.
  intros Hl Ht Hr s1.
  assert (Hs1 : life s1 = Gone /\ In t (timers s1) /\
                List.length (sockets s1) = List.length (sockets s)).
  { unfold s1, step. rewrite Hl. unfold cleanup.
    assert (Hw : forall s', life s' = Gone -> reconnectTimeoutRef s' = reconnectTimeoutRef s ->
              timers s' = timers s -> List.length (sockets s') = List.length (sockets s) ->
              life (match reconnectTimeoutRef s' with Some u => clearTimeout u s' | None => s' end)
                = Gone /\
              In t (timers (match reconnectTimeoutRef s' with
                            Some u => clearTimeout u s' | None => s' end)) /\
              List.length (sockets (match reconnectTimeoutRef s' with
                                    Some u => clearTimeout u s' | None => s' end)) =
                List.length (sockets s)).
    { intros s' H1 H2 H3 H4. rewrite H2. destruct (reconnectTimeoutRef s) as [u|] eqn:Eu.
      - unfold clearTimeout. simpl. split; [exact H1|]. split; [|exact H4].
        rewrite H3. apply in_in_remove; [congruence | exact Ht].
      - rewrite H3. auto. }
    destruct (wsRef (set_life Gone s)) as [w|]; [|apply Hw; reflexivity].
    unfold ws_close. destruct (ready w (set_life Gone s)) as [[]|]; apply Hw; try reflexivity;
      apply replace_nth_length. }
  destruct Hs1 as (H1 & H2 & H3). split; [exact H1|]. split; [exact H2|].
  unfold step. assert (E : existsb (Nat.eqb t) (timers s1) = true)
    by (apply existsb_exists; exists t; split; [exact H2 | apply Nat.eqb_refl]).
  rewrite E. simpl. rewrite length_app, H3. simpl. lia.
Qed.

Lemma cleanup_misses_older_timers_witness :
  let s := run no_parse [Mount; SockClose 0; Refresh; SockClose 1] (init 0) in
  life s = Alive /\ wsRef s = Some 1 /\ timers s = [1; 2] /\ reconnectTimeoutRef s = Some 2 /\
  List.length (sockets (step no_parse (TimerFire 1) (step no_parse Unmount s))) = 3.
Proof.
  intros s. split; [reflexivity|]. split; [reflexivity|]. split; [reflexivity|].
  split; [reflexivity|].
  destruct (cleanup_misses_older_timers no_parse s 1 eq_refl
              ltac:(simpl; auto) ltac:(discriminate)) as (_ & _ & H).
  exact H.
Defined.

Lemma prop_defined v k : v <> JNull -> v <> JUndef -> exists w, prop v k = Some w.
Proof. intros H1 H2. destruct v; try congruence; eexists; reflexivity. Qed.

Lemma handle_head now data s s' :
  life s = Alive -> handleRealtimeUpdate now data s = Some s' ->
  exists u ty msg st, prop data "type" = Some ty /\ prop data "message" = Some msg /\
    prop data "status" = Some st /\ prop data "data" = Some (udata u) /\
    utype u = js_or ty (JStr "data_sync") /\ umessage u = js_or msg (JStr "Data updated") /\
    ustatus u = js_or st (JStr "success") /\
    updates s' = firstn 50 (u :: updates s) /\
    (forall fs, prop data "stats" = Some (JObj fs) -> stats s' = obj_spread (stats s) (JObj fs)) /\
    (prop data "stats" = Some JUndef -> stats s' = stats s).
Proof.
  intros Hl H. unfold handleRealtimeUpdate in H.
  destruct (prop data "type") as [ty|] eqn:E1, (prop data "message") as [msg|] eqn:E2,
    (prop data "status") as [st|] eqn:E3, (prop data "data") as [dd|] eqn:E4,
    (prop data "stats") as [sts|] eqn:E5; try discriminate.
  injection H as <-.
  exists {| uid := "update_" ++ N_to_string now; utype := js_or ty (JStr "data_sync");
            umessage := js_or msg (JStr "Data updated"); utimestamp := now;
            ustatus := js_or st (JStr "success"); udata := dd |}, ty, msg, st.
  split; [reflexivity|]. split; [reflexivity|]. split; [reflexivity|].
  split; [reflexivity|]. simpl. split; [reflexivity|]. split; [reflexivity|].
  split; [reflexivity|]. unfold react_set. rewrite Hl. simpl. rewrite Hl.
  split; [destruct (truthy sts); simpl; rewrite ?Hl; reflexivity|].
  split; [intros fs Hf; injection Hf as ->; simpl; rewrite Hl; reflexivity|].
  intros Hf; injection Hf as ->; reflexivity.
Qed.

(** X13: a payload that JSON.parse turns into [null] is dropped like a
    malformed one, but any other non-object payload (a number, a boolean, a
    string, an array) is accepted: it puts a default update at the front of
    the feed (type "data_sync", message "Data updated", status "success", no
    data) and leaves the stats alone. *)
Theorem feed_primitive_payloads (P : string -> option jval) (s : State)
    (n : nat) (raw : string) (now : N) :
  (P raw = Some JNull -> step P (SockMessage n raw now) s = s) /\
  (forall v, P raw = Some v ->
   match v with JNum _ | JBool _ | JStr _ | JArr _ => True | _ => False end ->
   life s = Alive -> ready n s = Some OPEN ->
   exists u, updates (step P (SockMessage n raw now) s) = firstn 50 (u :: updates s) /\
     utype u = JStr "data_sync" /\ umessage u = JStr "Data updated" /\
     ustatus u = JStr "success" /\ udata u = JUndef /\
     stats (step P (SockMessage n raw now) s) = stats s).
Proof.
  split.
  - intros Hp. unfold step. destruct (ready n s) as [[]|]; try reflexivity.
    unfold onmessage. rewrite Hp. reflexivity.
  - intros v Hp Hv Hl Hr. rewrite RealTimeUpdatesFacts.step_message by exact Hr.
    unfold onmessage. rewrite Hp.
    assert (Hn1 : v <> JNull) by (intros ->; contradiction).
    assert (Hn2 : v <> JUndef) by (intros ->; contradiction).
    destruct (RealTimeUpdatesFacts.handle_alive now v s Hl Hn1 Hn2)
      as (u0 & sts & s' & Hh & _). rewrite Hh.
    destruct (handle_head now v s s' Hl Hh)
      as (u & ty & msg & st & E1 & E2 & E3 & E4 & Ht & Hm & Hs & Hu & _ & Hst).
    assert (Hund : forall k, prop v k = Some JUndef)
      by (intros k; destruct v; try contradiction; reflexivity).
    rewrite Hund in E1, E2, E3, E4, Hst. injection E1 as <-. injection E2 as <-.
    injection E3 as <-. injection E4 as E4. exists u.
    split; [exact Hu|]. split; [exact Ht|]. split; [exact Hm|]. split; [exact Hs|].
    split; [symmetry; exact E4|]. apply Hst. reflexivity.
Qed.

Definition parse_num (_ : string) : option jval := Some (JNum 5).

Lemma feed_primitive_payloads_witness :
  let s := run parse_num [Mount; SockOpen 0] (init 0) in
  life s = Alive /\ ready 0 s = Some OPEN /\
  exists u, updates (step parse_num (SockMessage 0 "5" 8) s) = firstn 50 (u :: updates s) /\
    utype u = JStr "data_sync" /\ umessage u = JStr "Data updated" /\
    ustatus u = JStr "success" /\ udata u = JUndef /\
    stats (step parse_num (SockMessage 0 "5" 8) s) = stats s.
Proof.
  intros s. split; [reflexivity|]. split; [reflexivity|].
  exact (proj2 (feed_primitive_payloads parse_num s 0 "5" 8) (JNum 5) eq_refl I eq_refl eq_refl).
Defined.

(** X14: a handled message whose [type] is truthy but not a string (a number,
    [true], an array, an object) is stored as it is, and rendering the feed
    then throws: [update.type.replace] is not a function. *)
Theorem feed_render_throws_on_nonstring_type (P : string -> option jval) (s : State)
    (n : nat) (raw : string) (now : N) (data ty : jval) :
  P raw = Some data -> prop data "type" = Some ty -> truthy ty = true ->
  (forall str, ty <> JStr str) -> life s = Alive -> ready n s = Some OPEN ->
  render_labels (updates (step P (SockMessage n raw now) s)) = None.
Proof.
  intros Hp Hty Htr Hns Hl Hr. rewrite RealTimeUpdatesFacts.step_message by exact Hr.
  unfold onmessage. rewrite Hp.
  assert (Hn1 : data <> JNull) by (intros ->; discriminate).
  assert (Hn2 : data <> JUndef) by (intros ->; discriminate).
  destruct (RealTimeUpdatesFacts.handle_alive now data s Hl Hn1 Hn2)
    as (u0 & sts & s' & Hh & _). rewrite Hh.
  destruct (handle_head now data s s' Hl Hh) as (u & ty' & _ & _ & E1 & _ & _ & _ & Ht & _ & _ & Hu & _).
  rewrite Hty in E1. injection E1 as <-. rewrite Hu.
  change (firstn 50 (u :: updates s)) with (u :: firstn 49 (updates s)). simpl.
  rewrite Ht. unfold js_or. rewrite Htr.
  destruct ty; try reflexivity. exfalso. apply (Hns s0). reflexivity.
Qed.

Definition parse_typed (_ : string) : option jval := Some (JObj [("type", JNum 5)]).

Lemma feed_render_throws_on_nonstring_type_witness :
  let s := run parse_typed [Mount; SockOpen 0] (init 0) in
  life s = Alive /\ ready 0 s = Some OPEN /\
  render_labels (updates s) = Some [] /\
  render_labels (updates (step parse_typed (SockMessage 0 "m" 1) s)) = None.
Proof.
  intros s. split; [reflexivity|]. split; [reflexivity|]. split; [reflexivity|].
  exact (feed_render_throws_on_nonstring_type parse_typed s 0 "m" 1 _ (JNum 5)
           eq_refl eq_refl eq_refl ltac:(discriminate) eq_refl eq_refl).
Defined.

Lemma to_upper_app a b : to_upper (a ++ b) = (to_upper a ++ to_upper b)%string.
Proof. induction a as [|c a IH]; simpl; [reflexivity|]. rewrite IH. reflexivity. Qed.

(** X15: the type label replaces only the first underscore and upper-cases the
    rest: for a type [a_b] with no underscore in [a], the label is
    [A B] with any further underscores of [b] kept. *)
Theorem type_label_first_underscore (a b : string) :
  ~ In "_"%char (list_ascii_of_string a) ->
  type_label (JStr (a ++ String "_" b)) = Some (to_upper a ++ String " " (to_upper b))%string.
Proof.
  intros Ha. unfold type_label. f_equal.
  assert (H : replace_first_underscore (a ++ String "_" b) = (a ++ String " " b)%string).
  { induction a as [|c a IH]; simpl; [reflexivity|].
    simpl in Ha. destruct (Ascii.eqb_spec c "_"%char) as [->|Hc].
    - exfalso. apply Ha. left. reflexivity.
    - rewrite IH; [reflexivity|]. intros Hi. apply Ha. right. exact Hi. }
  rewrite H, to_upper_app. reflexivity.
Qed.

Lemma type_label_first_underscore_witness :
  ~ In "_"%char (list_ascii_of_string "data") /\
  type_label (JStr ("data" ++ String "_" "sync_done")) = Some "DATA SYNC_DONE".
Proof.
  assert (H : ~ In "_"%char (list_ascii_of_string "data"))
    by (simpl; intros [E|[E|[E|[E|[]]]]]; discriminate).
  split; [exact H|]. exact (type_label_first_underscore "data" "sync_done" H).
Defined.

(** X16: [formatTimeAgo] picks its unit by the age [d] in milliseconds:
    whole seconds [d / 1000] below one minute, whole minutes [d / 60000]
    below one hour, whole hours [d / 3600000] below one day, and the locale
    date from one day on; a timestamp in the future gives a negative count,
    "-Ns ago". *)
Theorem formatTimeAgo_units (now date : Z) :
  let d := (now - date)%Z in
  ((d < 60000)%Z -> formatTimeAgo now date = Some (Z_to_string (d / 1000) ++ "s ago")) /\
  ((60000 <= d < 3600000)%Z ->
   formatTimeAgo now date = Some (Z_to_string (d / 60000) ++ "m ago")) /\
  ((3600000 <= d < 86400000)%Z ->
   formatTimeAgo now date = Some (Z_to_string (d / 3600000) ++ "h ago")) /\
  ((86400000 <= d)%Z -> formatTimeAgo now date = None) /\
  ((d < 0)%Z -> exists k, (1 <= k)%N /\
   formatTimeAgo now date = Some ("-" ++ N_to_string k ++ "s ago")).
Proof.
  intros d. unfold formatTimeAgo. fold d.
  rewrite !Z.div_div by lia. simpl (1000 * 60)%Z. simpl (60000 * 60)%Z.
  split; [|split; [|split; [|split]]]; intros Hd.
  - replace (d / 1000 <? 60)%Z with true
      by (symmetry; apply Z.ltb_lt; Z.div_mod_to_equations; lia). reflexivity.
  - replace (d / 1000 <? 60)%Z with false
      by (symmetry; apply Z.ltb_ge; Z.div_mod_to_equations; lia).
    replace (d / 60000 <? 60)%Z with true
      by (symmetry; apply Z.ltb_lt; Z.div_mod_to_equations; lia). reflexivity.
  - replace (d / 1000 <? 60)%Z with false
      by (symmetry; apply Z.ltb_ge; Z.div_mod_to_equations; lia).
    replace (d / 60000 <? 60)%Z with false
      by (symmetry; apply Z.ltb_ge; Z.div_mod_to_equations; lia).
    replace (d / 3600000 <? 24)%Z with true
      by (symmetry; apply Z.ltb_lt; Z.div_mod_to_equations; lia). reflexivity.
  - replace (d / 1000 <? 60)%Z with false
      by (symmetry; apply Z.ltb_ge; Z.div_mod_to_equations; lia).
    replace (d / 60000 <? 60)%Z with false
      by (symmetry; apply Z.ltb_ge; Z.div_mod_to_equations; lia).
    replace (d / 3600000 <? 24)%Z with false
      by (symmetry; apply Z.ltb_ge; Z.div_mod_to_equations; lia). reflexivity.
  - replace (d / 1000 <? 60)%Z with true
      by (symmetry; apply Z.ltb_lt; Z.div_mod_to_equations; lia).
    exists (Z.to_N (- (d / 1000))). split; [Z.div_mod_to_equations; lia|].
    unfold Z_to_string.
    replace (d / 1000 <? 0)%Z with true
      by (symmetry; apply Z.ltb_lt; Z.div_mod_to_equations; lia). reflexivity.
Qed.

Lemma formatTimeAgo_units_witness :
  formatTimeAgo 100000 40000 = Some "1m ago" /\ formatTimeAgo 0 2500 = Some "-3s ago".
Proof.
  split.
  - exact (proj1 (proj2 (formatTimeAgo_units 100000 40000)) ltac:(lia)).
  - rewrite (proj1 (formatTimeAgo_units 0 2500) ltac:(lia)). vm_compute. reflexivity.
Defined.

End RealTimeUpdatesExtra.

(** ** Further properties of the dashboard loader and the activity clock *)

Module DashboardExtra.
Import Dashboard.

Section Load.

Variable toLocaleString : jval -> string.

Lemma stats_metrics_obj fs m :
  stats_metrics toLocaleString (JObj fs) = Some m ->
  let g k := match obj_get k fs with Some w => w | None => JUndef end in
  exists x y z ts li,
    js_String (nullish (g "total_floats") (JStr dash)) = Some x /\
    js_String (nullish (g "active_floats") (JStr dash)) = Some y /\
    js_String (nullish (g "total_measurements") (JStr dash)) = Some z /\
    (if truthy (g "recent_metrics") then
       match index0 (g "recent_metrics") with
       | Some r0 => if truthy r0 then prop r0 "timestamp" else Some JNull
       | None => None
       end
     else Some JNull) = Some ts /\
    (if truthy ts then
       match js_String ts with Some _ => Some (toLocaleString ts) | None => None end
     else Some dash) = Some li /\
    m = mk_metrics x y z li.
Proof.
  intros H g. unfold stats_metrics in H. cbn [prop] in H. fold (g "total_floats") (g "active_floats")
    (g "total_measurements") (g "recent_metrics") in H.
  set (rts := if truthy (g "recent_metrics") then _ else _) in H.
  destruct rts as [ts|] eqn:Er; [|discriminate].
  set (lis := if truthy ts then _ else _) in H.
  destruct lis as [li|] eqn:El; [|discriminate].
  destruct (js_String (nullish (g "total_floats") (JStr dash))) as [x|] eqn:Ex; [|discriminate].
  destruct (js_String (nullish (g "active_floats") (JStr dash))) as [y|] eqn:Ey; [|discriminate].
  destruct (js_String (nullish (g "total_measurements") (JStr dash))) as [z|] eqn:Ez;
    [|discriminate].
  injection H as <-. exists x, y, z, ts, li. auto 7.
Qed.


End Load.

Definition fmt_date (_ : jval) : string := "1/2/2024, 10:00:00 AM".


Section Fields.

Variable toLocaleString : jval -> string.

(** X18: the three count cards use [??], not [||]: a count that is missing,
    [null] or [undefined] shows "—", any other value is shown as
    [String(value)], so 0, [false] and "" are displayed as "0", "false" and
    an empty card.  Numbers are safe integers, where [js_String] prints
    them as JavaScript does. *)
Theorem loadStats_count_cards (fs : list (string * jval)) (m : list Metric)
    (i : nat) (k : string) :
  stats_metrics toLocaleString (JObj fs) = Some m ->
  nth_error ["total_floats"; "active_floats"; "total_measurements"] i = Some k ->
  (forall v, obj_get k fs = Some v -> exact_nums v = true) ->
  exists x, nth_error (map mvalue m) i = Some x /\
    match obj_get k fs with
    | None | Some JUndef | Some JNull => x = dash
    | Some v => js_String v = Some x
    end.
Proof.
  intros H Hk _. apply stats_metrics_obj in H.
  destruct H as (x & y & z & ts & li & Ex & Ey & Ez & _ & _ & ->).
  destruct i as [|[|[|i]]]; simpl in Hk; injection Hk as <- || (destruct i; discriminate).
  - exists x. split; [reflexivity|].
    destruct (obj_get "total_floats" fs) as [[]|]; cbn [nullish] in Ex |- *;
      try (injection Ex as <-; reflexivity); exact Ex.
  - exists y. split; [reflexivity|].
    destruct (obj_get "active_floats" fs) as [[]|]; cbn [nullish] in Ey |- *;
      try (injection Ey as <-; reflexivity); exact Ey.
  - exists z. split; [reflexivity|].
    destruct (obj_get "total_measurements" fs) as [[]|]; cbn [nullish] in Ez |- *;
      try (injection Ez as <-; reflexivity); exact Ez.
Qed.


End Fields.

Definition sample_stats : list (string * jval) :=
  [("total_floats", JNum 0); ("active_floats", JNull); ("total_measurements", JStr "12");
   ("recent_metrics", JArr [JObj [("timestamp", JStr "2024-01-02T10:00:00Z")]])].

Lemma loadStats_count_cards_witness :
  stats_metrics fmt_date (JObj sample_stats) =
    Some (mk_metrics "0" dash "12" (fmt_date (JStr "2024-01-02T10:00:00Z"))) /\
  nth_error ["total_floats"; "active_floats"; "total_measurements"] 0 = Some "total_floats" /\
  exists x, nth_error (map mvalue (mk_metrics "0" dash "12" (fmt_date (JStr "2024-01-02T10:00:00Z")))) 0 = Some x /\
    js_String (JNum 0) = Some x.
Proof.
  split; [reflexivity|]. split; [reflexivity|].
  exact (loadStats_count_cards fmt_date sample_stats _ 0 "total_floats" eq_refl eq_refl
           ltac:(intros v Hv; simpl in Hv; injection Hv as <-; reflexivity)).
Defined.



End DashboardExtra.

Module CollaborationExtra.
Import Collaboration.

(** X20: the activity clock counts whole minutes [d / 60000] below one hour,
    whole hours [d / 3600000] below one day, and whole days [d / 86400000]
    from then on, [d] being the age in milliseconds; a future time prints a
    negative minute count. *)
Theorem collab_formatTimeAgo_units (now date : Z) :
  let d := (now - date)%Z in
  ((d < 3600000)%Z -> formatTimeAgo now date =
     (RealTimeUpdates.Z_to_string (d / 60000) ++ "m ago")%string) /\
  ((3600000 <= d < 86400000)%Z -> formatTimeAgo now date =
     (RealTimeUpdates.Z_to_string (d / 3600000) ++ "h ago")%string) /\
  ((86400000 <= d)%Z -> formatTimeAgo now date =
     (RealTimeUpdates.Z_to_string (d / 86400000) ++ "d ago")%string).
Proof.
  intros d. unfold formatTimeAgo. fold d.
  rewrite !Z.div_div by lia. simpl (60000 * 60)%Z. simpl (3600000 * 24)%Z.
  split; [|split]; intros Hd.
  - replace (d / 60000 <? 60)%Z with true
      by (symmetry; apply Z.ltb_lt; Z.div_mod_to_equations; lia). reflexivity.
  - replace (d / 60000 <? 60)%Z with false
      by (symmetry; apply Z.ltb_ge; Z.div_mod_to_equations; lia).
    replace (d / 3600000 <? 24)%Z with true
      by (symmetry; apply Z.ltb_lt; Z.div_mod_to_equations; lia). reflexivity.
  - replace (d / 60000 <? 60)%Z with false
      by (symmetry; apply Z.ltb_ge; Z.div_mod_to_equations; lia).
    replace (d / 3600000 <? 24)%Z with false
      by (symmetry; apply Z.ltb_ge; Z.div_mod_to_equations; lia). reflexivity.
Qed.

Lemma collab_formatTimeAgo_units_witness :
  formatTimeAgo 700000000 0 = "8d ago" /\ formatTimeAgo 0 120000 = "-2m ago".
Proof.
  split.
  - rewrite (proj2 (proj2 (collab_formatTimeAgo_units 700000000 0)) ltac:(lia)).
    vm_compute. reflexivity.
  - rewrite (proj1 (collab_formatTimeAgo_units 0 120000) ltac:(lia)). vm_compute. reflexivity.
Defined.

End CollaborationExtra.
